(** * AI support ticket automation: ticket lifecycle and AI triage

    A shallow embedding of [app/models.py], [app/db.py], [app/ai.py] and
    [app/main.py], followed by the properties of the ticket service.

    Conventions of the embedding.
    - A Python call either returns a value or raises: [result].
    - A Python [str] is held as the bytes UTF-8 gives it. A lone surrogate,
      which UTF-8 refuses, is held as the three bytes that start with 237
      and go on with a byte of 160 or more; [py.encodable] tells whether a
      text is free of them. [json.loads] and the validation of [str]
      fields let such texts through; sqlite3 raises UnicodeEncodeError
      when it binds one.
    - sqlite3 binds a Python [int] as a signed 64 bit integer and raises
      OverflowError outside that range; ids, limits and offsets are [Z].
    - The SQLite file is a value of [db.Database]; a statement run inside
      [with get_connection() as conn] commits when the block ends normally
      and is rolled back when the block raises, so a raising operation
      hands back the database it was given.
    - [datetime('now')] is read once per statement; the text it yields is
      the [now] argument of the operations that write. TEXT values are
      compared bytewise, which is [String.compare].
    - The model provider lives outside the program: it is a state
      transformer over an arbitrary [World], and every request that goes
      out to it is appended to a log. The client [OpenAI(api_key=...)]
      keeps its default of two retries.
    - A handler returns [dict(row)]; every row of the table satisfies
      [TicketOut], so the response model is the row type itself. *)

From Stdlib Require Import ZArith List String Ascii Bool Lia.
From Stdlib Require Import Sorting.Sorted Sorting.Permutation.
From Stdlib Require QArith_base DecimalString.
Import ListNotations.
Local Open Scope string_scope.
Local Open Scope Z_scope.

(** ** Python values, exceptions and results *)

Module py.

(** The exceptions the four modules can raise. All of them derive from
    [Exception], so [except Exception] catches every constructor. *)
Inductive exn : Type :=
| RuntimeError (msg : string)
| CompletionError (detail : string)
    (* whatever client.chat.completions.create or resp.choices[0] raises *)
| TypeError             (* json.loads(None), dict(None) *)
| JSONDecodeError       (* json.loads on text that is not JSON *)
| AttributeError        (* .get on a value that is not a dict *)
| OverflowError         (* Python int too large for an SQLite INTEGER *)
| UnicodeEncodeError    (* a str with a lone surrogate bound as TEXT *)
| ProgrammingError      (* sqlite3: parameter of an unsupported type *)
| IntegrityError (msg : string)
| OperationalError (msg : string)
| HTTPException (status_code : Z) (detail : string)
| RequestValidationError.   (* FastAPI: body or query failed validation *)

Inductive result (A : Type) : Type :=
| Ok (a : A)
| Raise (e : exn).
Arguments Ok {A} a.
Arguments Raise {A} e.

Definition bind {A B : Type} (r : result A) (k : A -> result B) : result B :=
  match r with
  | Ok a => k a
  | Raise e => Raise e
  end.

(** What [json.loads] (and FastAPI's body parser) produce. [number] stands
    for Python's [int] and [float]. A [JDict] lists the items of a [dict]. *)
#[local] Set Warnings "-register-all".
Inductive json (number : Type) : Type :=
| JNull
| JBool (b : bool)
| JNumber (n : number)
| JString (s : string)
| JList (l : list (json number))
| JDict (items : list (string * json number)).
Arguments JNull {number}.
Arguments JBool {number} b.
Arguments JNumber {number} n.
Arguments JString {number} s.
Arguments JList {number} l.
Arguments JDict {number} items.

(** Lookup of a key among the items of a dict. *)
Fixpoint dict_get {A : Type} (key : string) (items : list (string * A)) : option A :=
  match items with
  | [] => None
  | (k, v) :: rest => if String.eqb k key then Some v else dict_get key rest
  end.

(** [value.get(key)]: a dict answers with the item or [None]; any other
    JSON value has no attribute [get]. *)
Definition get {number : Type} (value : json number) (key : string) : result (json number) :=
  match value with
  | JDict items =>
      Ok (match dict_get key items with Some v => v | None => JNull end)
  | _ => Raise AttributeError
  end.

(** Truthiness of an optional string: [None] and [""] are falsy. *)
Definition truthy (s : option string) : bool :=
  match s with
  | None => false
  | Some s => negb (String.eqb s "")
  end.

(** The first two bytes of a surrogate: 237, then 160 or more. *)
Definition surrogate (a b : ascii) : bool :=
  Ascii.eqb a "237"%char && (160 <=? N_of_ascii b)%N.

(** [s.encode("utf-8")] succeeds: the text holds no surrogate. *)
Fixpoint encodable (s : string) : bool :=
  match s with
  | EmptyString => true
  | String a rest =>
      match rest with
      | EmptyString => true
      | String b _ => if surrogate a b then false else encodable rest
      end
  end.

(** The HTTP status FastAPI answers with when a handler raises. *)
Definition status_code_of (e : exn) : Z :=
  match e with
  | HTTPException code _ => code
  | RequestValidationError => 422
  | _ => 500
  end.

Definition server_error (e : exn) : Prop := 500 <= status_code_of e < 600.

End py.
Import py.

Declare Scope result_scope.
Notation "x <- c ;; k" := (py.bind c (fun x => k))
  (at level 61, c at next level, right associativity) : result_scope.
Local Open Scope result_scope.

(** ** app/models.py *)

Module models.

Record TicketCreate : Type := {
  source : string;
  customer_name : option string;
  customer_email : option string;
  subject : string;
  body : string
}.

(** [Field(..., min_length=1)] on [subject] and [body]. The syntax of
    [customer_email] is checked by the e-mail validator before the handler
    runs and plays no part in what the handler does. *)
Definition TicketCreate_valid (t : TicketCreate) : bool :=
  (1 <=? String.length (subject t))%nat && (1 <=? String.length (body t))%nat.

(** A field of [TicketUpdate] remembers whether the request set it:
    [None] is unset, [Some None] is an explicit null, [Some (Some s)] a
    value. *)
Record TicketUpdate : Type := {
  status : option (option string);
  priority : option (option string);
  category : option (option string);
  summary : option (option string);
  suggested_reply : option (option string)
}.

Definition status_literals : list string :=
  ["new"; "open"; "pending"; "resolved"; "closed"].
Definition priority_literals : list string := ["low"; "medium"; "high"].
Definition category_literals : list string :=
  ["billing"; "technical"; "account"; "other"].

Definition is_literal (allowed : list string) (s : string) : bool :=
  existsb (String.eqb s) allowed.

Section Validation.
Context {number : Type}.

(** [Literal[...] | None = None] *)
Definition literal_field (allowed : list string) (v : option (json number))
  : result (option (option string)) :=
  match v with
  | None => Ok None
  | Some JNull => Ok (Some None)
  | Some (JString s) =>
      if is_literal allowed s then Ok (Some (Some s))
      else Raise RequestValidationError
  | Some _ => Raise RequestValidationError
  end.

(** [str | None = None] *)
Definition str_field (v : option (json number)) : result (option (option string)) :=
  match v with
  | None => Ok None
  | Some JNull => Ok (Some None)
  | Some (JString s) => Ok (Some (Some s))
  | Some _ => Raise RequestValidationError
  end.

(** Validation of a request body against [TicketUpdate]; keys that are
    not fields of the model are ignored. *)
Definition validate_TicketUpdate (body : json number) : result TicketUpdate :=
  match body with
  | JDict items =>
      st <- literal_field status_literals (dict_get "status" items) ;;
      pr <- literal_field priority_literals (dict_get "priority" items) ;;
      ca <- literal_field category_literals (dict_get "category" items) ;;
      su <- str_field (dict_get "summary" items) ;;
      sr <- str_field (dict_get "suggested_reply" items) ;;
      Ok {| status := st; priority := pr; category := ca;
            summary := su; suggested_reply := sr |}
  | _ => Raise RequestValidationError
  end.
End Validation.

Definition dump_field (name : string) (f : option (option string))
  : list (string * option string) :=
  match f with
  | None => []
  | Some v => [(name, v)]
  end.

(** [patch.model_dump(exclude_unset=True)]: the fields that were set, in
    declaration order. *)
Definition model_dump_exclude_unset (p : TicketUpdate) : list (string * option string) :=
  (dump_field "status" (status p) ++ dump_field "priority" (priority p)
   ++ dump_field "category" (category p) ++ dump_field "summary" (summary p)
   ++ dump_field "suggested_reply" (suggested_reply p))%list.

Section CreateValidation.
Context {number : Type}.

(** The e-mail validator behind [EmailStr]: the normalised address, or
    [None] for a text that is no address. *)
Variable validate_email : string -> option string.

(** [str = Field(...)]: required, a JSON string. *)
Definition required_str (v : option (json number)) : result string :=
  match v with
  | Some (JString s) => Ok s
  | _ => Raise RequestValidationError
  end.

(** [str = Field(..., min_length=1)] *)
Definition nonempty_str (v : option (json number)) : result string :=
  s <- required_str v ;;
  if (1 <=? String.length s)%nat then Ok s else Raise RequestValidationError.

(** [Optional[str] = None] *)
Definition optional_str (v : option (json number)) : result (option string) :=
  match v with
  | None | Some JNull => Ok None
  | Some (JString s) => Ok (Some s)
  | Some _ => Raise RequestValidationError
  end.

(** [Optional[EmailStr] = None] *)
Definition optional_email (v : option (json number)) : result (option string) :=
  match v with
  | None | Some JNull => Ok None
  | Some (JString s) =>
      match validate_email s with
      | Some address => Ok (Some address)
      | None => Raise RequestValidationError
      end
  | Some _ => Raise RequestValidationError
  end.

(** Validation of a request body against [TicketCreate]. *)
Definition validate_TicketCreate (body : json number) : result TicketCreate :=
  match body with
  | JDict items =>
      so <- required_str (dict_get "source" items) ;;
      cn <- optional_str (dict_get "customer_name" items) ;;
      ce <- optional_email (dict_get "customer_email" items) ;;
      su <- nonempty_str (dict_get "subject" items) ;;
      bo <- nonempty_str (dict_get "body" items) ;;
      Ok {| source := so; customer_name := cn; customer_email := ce;
            subject := su; body := bo |}
  | _ => Raise RequestValidationError
  end.
End CreateValidation.

End models.

(** ** app/db.py *)

Module db.

(** A row of table [tickets]; [dict(row)] has the same thirteen items, so
    this is also what the handlers return. Columns declared NOT NULL hold
    a text, the others a text or NULL. *)
Record Row : Type := {
  id : Z;
  source : string;
  customer_name : option string;
  customer_email : option string;
  subject : string;
  body : string;
  status : string;
  priority : option string;
  category : option string;
  summary : option string;
  suggested_reply : option string;
  created_at : string;
  updated_at : string
}.

(** The table in rowid order, and the AUTOINCREMENT counter that SQLite
    keeps in [sqlite_sequence]. *)
Record Database : Type := {
  tickets : list Row;
  sqlite_sequence : Z
}.

(** [CREATE TABLE IF NOT EXISTS] and [CREATE TRIGGER IF NOT EXISTS]: a
    file without the table gets an empty one, any other is left alone. *)
Definition init_db (file : option Database) : Database :=
  match file with
  | None => {| tickets := []; sqlite_sequence := 0 |}
  | Some d => d
  end.

Fixpoint max_id (rows : list Row) : Z :=
  match rows with
  | [] => 0
  | r :: rest => Z.max (id r) (max_id rest)
  end.

(** [id INTEGER PRIMARY KEY AUTOINCREMENT]: one more than the largest id
    the table ever held. *)
Definition next_id (d : Database) : Z :=
  Z.max (sqlite_sequence d) (max_id (tickets d)) + 1.

(** ** Binding of parameters by [conn.execute] *)

(** A signed 64 bit integer. *)
Definition int64 (z : Z) : bool := (- 2 ^ 63 <=? z) && (z <? 2 ^ 63).

(** A Python [int] bound as INTEGER. *)
Definition bind_int (z : Z) : result Z :=
  if int64 z then Ok z else Raise OverflowError.

(** A Python [str] bound as TEXT: it is encoded as UTF-8. *)
Definition bind_str (s : string) : result string :=
  if encodable s then Ok s else Raise UnicodeEncodeError.

(** [None] or a [str]. *)
Definition bind_opt (v : option string) : result (option string) :=
  match v with
  | None => Ok None
  | Some s => s' <- bind_str s ;; Ok (Some s')
  end.

(** How a value out of [json.loads] lands in a column of TEXT affinity:
    NULL and text as they are, a number as its text form; lists and dicts
    cannot be bound at all. [number_text] is the text of a Python number,
    or [None] for an [int] outside 64 bits. *)
Section Binding.
Context {number : Type}.
Variable number_text : number -> option string.

Definition bind_text (v : json number) : result (option string) :=
  match v with
  | JNull => Ok None
  | JString s => s' <- bind_str s ;; Ok (Some s')
  | JBool b => Ok (Some (if b then "1" else "0"))
  | JNumber n =>
      match number_text n with
      | Some t => Ok (Some t)
      | None => Raise OverflowError
      end
  | JList _ | JDict _ => Raise ProgrammingError
  end.
End Binding.

(** The values of a SET clause, bound in order. *)
Fixpoint bind_values (sets : list (string * option string))
  : result (list (string * option string)) :=
  match sets with
  | [] => Ok []
  | (column, value) :: rest =>
      v <- bind_opt value ;;
      others <- bind_values rest ;;
      Ok ((column, v) :: others)
  end.

(** ** Statements *)

(** [INSERT INTO tickets (source, ..., suggested_reply) VALUES (...)] with
    parameters already bound: [status], [created_at] and [updated_at]
    take their column defaults ['new'] and [datetime('now')]. The trigger
    is AFTER UPDATE only. When the largest 64 bit id has been used,
    AUTOINCREMENT has no id left and SQLite reports the database full.
    Returns [cursor.lastrowid]. *)
Definition insert_ticket (now : string)
    (source : string) (customer_name customer_email : option string)
    (subject body : string)
    (priority category summary suggested_reply : option string)
    (d : Database) : result (Z * Database) :=
  let new_id := next_id d in
  if new_id <? 2 ^ 63 then
    let row := {| id := new_id; source := source;
                  customer_name := customer_name;
                  customer_email := customer_email;
                  subject := subject; body := body;
                  status := "new";
                  priority := priority; category := category;
                  summary := summary; suggested_reply := suggested_reply;
                  created_at := now; updated_at := now |} in
    Ok (new_id,
        {| tickets := (tickets d ++ [row])%list; sqlite_sequence := new_id |})
  else Raise (OperationalError "database or disk is full").

(** [SELECT * FROM tickets WHERE id = ?] followed by [fetchone()]. *)
Definition select_by_id (d : Database) (ticket_id : Z) : option Row :=
  find (fun r => id r =? ticket_id) (tickets d).

(** One [column = ?] of a SET clause, its value already bound. [status]
    is NOT NULL. *)
Definition assign (column : string) (value : option string) (r : Row) : result Row :=
  let with_fields st pr ca su sr :=
    {| id := id r; source := source r; customer_name := customer_name r;
       customer_email := customer_email r; subject := subject r;
       body := body r; status := st; priority := pr; category := ca;
       summary := su; suggested_reply := sr;
       created_at := created_at r; updated_at := updated_at r |} in
  if String.eqb column "status" then
    match value with
    | Some s => Ok (with_fields s (priority r) (category r) (summary r) (suggested_reply r))
    | None => Raise (IntegrityError "NOT NULL constraint failed: tickets.status")
    end
  else if String.eqb column "priority" then
    Ok (with_fields (status r) value (category r) (summary r) (suggested_reply r))
  else if String.eqb column "category" then
    Ok (with_fields (status r) (priority r) value (summary r) (suggested_reply r))
  else if String.eqb column "summary" then
    Ok (with_fields (status r) (priority r) (category r) value (suggested_reply r))
  else if String.eqb column "suggested_reply" then
    Ok (with_fields (status r) (priority r) (category r) (summary r) value)
  else Raise (OperationalError "no such column").

Fixpoint assign_all (sets : list (string * option string)) (r : Row) : result Row :=
  match sets with
  | [] => Ok r
  | (column, value) :: rest => r' <- assign column value r ;; assign_all rest r'
  end.

(** Trigger [tickets_updated_at]: after a row is updated,
    [UPDATE tickets SET updated_at = datetime('now') WHERE id = OLD.id]. *)
Definition tickets_updated_at (now : string) (r : Row) : Row :=
  {| id := id r; source := source r; customer_name := customer_name r;
     customer_email := customer_email r; subject := subject r;
     body := body r; status := status r; priority := priority r;
     category := category r; summary := summary r;
     suggested_reply := suggested_reply r;
     created_at := created_at r; updated_at := now |}.

(** The rows after [UPDATE tickets SET ... WHERE id = ?] and its trigger,
    with [cursor.rowcount]. *)
Fixpoint update_rows (sets : list (string * option string)) (ticket_id : Z)
    (now : string) (rows : list Row) : result (list Row * Z) :=
  match rows with
  | [] => Ok ([], 0)
  | r :: rest =>
      if id r =? ticket_id then
        r' <- assign_all sets r ;;
        out <- update_rows sets ticket_id now rest ;;
        Ok (tickets_updated_at now r' :: fst out, snd out + 1)
      else
        out <- update_rows sets ticket_id now rest ;;
        Ok (r :: fst out, snd out)
  end.

(** [conn.execute("UPDATE tickets SET ... WHERE id = ?", params)]: the
    parameters are bound first, the values of the SET clause and then the
    id, and the statement runs only when all of them are bound. *)
Definition update_tickets (sets : list (string * option string)) (ticket_id : Z)
    (now : string) (d : Database) : result (Database * Z) :=
  bound <- bind_values sets ;;
  i <- bind_int ticket_id ;;
  out <- update_rows bound i now (tickets d) ;;
  Ok ({| tickets := fst out; sqlite_sequence := sqlite_sequence d |}, snd out).

(** [ORDER BY created_at DESC]: insertion into a list that is already in
    descending order. Rows with equal [created_at] keep their rowid
    order; SQL itself leaves the order of such rows open. *)
Fixpoint insert_desc (r : Row) (sorted : list Row) : list Row :=
  match sorted with
  | [] => [r]
  | x :: rest =>
      if String.leb (created_at x) (created_at r) then r :: sorted
      else x :: insert_desc r rest
  end.

Fixpoint order_by_created_at_desc (rows : list Row) : list Row :=
  match rows with
  | [] => []
  | r :: rest => insert_desc r (order_by_created_at_desc rest)
  end.

(** [LIMIT ? OFFSET ?]: a negative limit means no limit, a negative
    offset means none. *)
Definition limit_offset (limit offset : Z) (rows : list Row) : list Row :=
  let rest := skipn (Z.to_nat offset) rows in
  if limit <? 0 then rest else firstn (Z.to_nat limit) rest.

(** The rows of [SELECT * FROM tickets [WHERE status = ?] ORDER BY
    created_at DESC LIMIT ? OFFSET ?], its parameters already bound. *)
Definition select_tickets (where_status : option string) (limit offset : Z)
    (d : Database) : list Row :=
  let matching :=
    match where_status with
    | Some s => filter (fun r => String.eqb (status r) s) (tickets d)
    | None => tickets d
    end in
  limit_offset limit offset (order_by_created_at_desc matching).

End db.

(** ** app/ai.py *)

Module ai.

Record Message : Type := { role : string; content : string }.

(** The JSON Schema literal of [analyze_ticket]. *)
Record Property : Type := { type_ : string; enum : option (list string) }.

Record ObjectSchema : Type := {
  additionalProperties : bool;
  properties : list (string * Property);
  required : list string
}.

Inductive ResponseFormat : Type :=
| json_schema (name : string) (schema : ObjectSchema) (strict : bool)
| json_object.

(** The keyword arguments of [client.chat.completions.create]. *)
Record ChatRequest : Type := {
  model : string;
  messages : list Message;
  temperature : QArith_base.Q;
  response_format : ResponseFormat
}.

Definition schema : ResponseFormat :=
  json_schema "ticket_analysis"
    {| additionalProperties := false;
       properties :=
         [("priority", {| type_ := "string"; enum := Some ["low"; "medium"; "high"] |});
          ("category", {| type_ := "string";
                          enum := Some ["billing"; "technical"; "account"; "other"] |});
          ("summary", {| type_ := "string"; enum := None |});
          ("suggested_reply", {| type_ := "string"; enum := None |})];
       required := ["priority"; "category"; "summary"; "suggested_reply"] |}
    true.

Definition newline : string := String "010"%char EmptyString.

Definition messages_for (subject body : string) : list Message :=
  [ {| role := "system";
       content := "You are a helpful customer support assistant. Return structured results." |};
    {| role := "user";
       content := "Ticket subject: " ++ subject ++ newline ++ "Ticket body: " ++ body |} ].

Definition reminder : Message :=
  {| role := "user";
     content := "Return ONLY a valid JSON object with keys: priority, category, summary, suggested_reply." |}.

Definition strict_request (subject body : string) : ChatRequest :=
  {| model := "gpt-4.1-mini";
     messages := messages_for subject body;
     temperature := QArith_base.Qmake 2 10;
     response_format := schema |}.

Definition fallback_request (subject body : string) : ChatRequest :=
  {| model := "gpt-4.1-mini";
     messages := (messages_for subject body ++ [reminder])%list;
     temperature := QArith_base.Qmake 2 10;
     response_format := json_object |}.

Definition missing_key_message : string :=
  "OPENAI_API_KEY is missing. Ensure .env exists in project root and contains OPENAI_API_KEY=...".

(** What comes back for one request that went out. *)
Inductive Reply : Type :=
| Completion (content : option string)
    (* a completion; [resp.choices[0].message.content] may be [None] *)
| Rejected (detail : string)
    (* an error the client does not retry: a 400, 401, 403, 404 or 422
       status, or a reply it cannot read *)
| Unavailable (detail : string).
    (* an error the client retries: no connection, a timeout, a 408,
       409, 429 or 5xx status *)

(** The client's default [max_retries]. *)
Definition max_retries : nat := 2.

Section Client.
Context {World number : Type}.

(** The provider, one request at a time. *)
Variable provider : ChatRequest -> World -> Reply * World.

(** [json.loads] on a text; [None] when the text is not JSON. *)
Variable json_loads : string -> option (json number).

(** The outside world together with the requests sent to it so far. *)
Record Net : Type := { world : World; sent : list ChatRequest }.

(** The client sends the request and, as long as the provider is
    unavailable and retries are left, sends it again. *)
Fixpoint send (retries : nat) (req : ChatRequest) (n : Net)
  : result (option string) * Net :=
  let (reply, w) := provider req (world n) in
  let n' := {| world := w; sent := (sent n ++ [req])%list |} in
  match reply with
  | Completion content => (Ok content, n')
  | Rejected detail => (Raise (CompletionError detail), n')
  | Unavailable detail =>
      match retries with
      | O => (Raise (CompletionError detail), n')
      | S fewer => send fewer req n'
      end
  end.

(** [client.chat.completions.create(...)] on [client = OpenAI(api_key=...)],
    then [resp.choices[0].message.content]. *)
Definition chat_completions_create (req : ChatRequest) (n : Net)
  : result (option string) * Net :=
  send max_retries req n.

Definition loads (content : option string) : result (json number) :=
  match content with
  | None => Raise TypeError
  | Some text =>
      match json_loads text with
      | Some v => Ok v
      | None => Raise JSONDecodeError
      end
  end.

(** The body shared by the [try] and the [except] branch: one call of the
    client, then [json.loads] of the content. *)
Definition complete (req : ChatRequest) (n : Net) : result (json number) * Net :=
  let (r, n') := chat_completions_create req n in
  (content <- r ;; loads content, n').

Definition analyze_ticket (api_key : option string) (subject body : string) (n : Net)
  : result (json number) * Net :=
  if negb (truthy api_key) then (Raise (RuntimeError missing_key_message), n)
  else
    match complete (strict_request subject body) n with
    | (Ok v, n1) => (Ok v, n1)
    | (Raise _, n1) => complete (fallback_request subject body) n1
    end.

End Client.
Arguments Net World : clear implicits.

End ai.

(** ** app/main.py *)

Module main.

Section Service.
Context {World number : Type}.
Variable provider : ai.ChatRequest -> World -> ai.Reply * World.
Variable json_loads : string -> option (json number).
Variable number_text : number -> option string.

(** The dict of the [except Exception] branch. *)
Definition no_ai_data : json number :=
  JDict [("priority", JNull); ("category", JNull);
         ("summary", JNull); ("suggested_reply", JNull)].

(** The four [ai_data.get(...)] that complete the parameter tuple. *)
Definition ai_values (ai_data : json number)
  : result (json number * json number * json number * json number) :=
  priority <- py.get ai_data "priority" ;;
  category <- py.get ai_data "category" ;;
  summary <- py.get ai_data "summary" ;;
  suggested_reply <- py.get ai_data "suggested_reply" ;;
  Ok (priority, category, summary, suggested_reply).

(** The first five parameters of the INSERT, as [conn.execute] binds
    them. *)
Definition ticket_parameters (ticket : models.TicketCreate)
  : result models.TicketCreate :=
  so <- db.bind_str (models.source ticket) ;;
  cn <- db.bind_opt (models.customer_name ticket) ;;
  ce <- db.bind_opt (models.customer_email ticket) ;;
  su <- db.bind_str (models.subject ticket) ;;
  bo <- db.bind_str (models.body ticket) ;;
  Ok {| models.source := so; models.customer_name := cn;
        models.customer_email := ce; models.subject := su;
        models.body := bo |}.

(** The last four. *)
Definition ai_parameters
    (values : json number * json number * json number * json number)
  : result (option string * option string * option string * option string) :=
  let '(priority, category, summary, suggested_reply) := values in
  p <- db.bind_text number_text priority ;;
  c <- db.bind_text number_text category ;;
  s <- db.bind_text number_text summary ;;
  r <- db.bind_text number_text suggested_reply ;;
  Ok (p, c, s, r).

(** The parameter tuple is built, which evaluates the four [.get], and
    then bound from left to right. *)
Definition parameters (ticket : models.TicketCreate) (ai_data : json number)
  : result (models.TicketCreate
            * (option string * option string * option string * option string)) :=
  values <- ai_values ai_data ;;
  t <- ticket_parameters ticket ;;
  a <- ai_parameters values ;;
  Ok (t, a).

(** [POST /tickets] *)
Definition create_ticket (api_key : option string) (now : string)
    (ticket : models.TicketCreate) (n : ai.Net World) (d : db.Database)
  : result db.Row * ai.Net World * db.Database :=
  let (triage, n') :=
    ai.analyze_ticket provider json_loads api_key
      (models.subject ticket) (models.body ticket) n in
  let ai_data :=
    match triage with
    | Ok v => v
    | Raise _ => no_ai_data
    end in
  match parameters ticket ai_data with
  | Raise e => (Raise e, n', d)
  | Ok (t, (p, c, s, r)) =>
      match db.insert_ticket now (models.source t)
              (models.customer_name t) (models.customer_email t)
              (models.subject t) (models.body t) p c s r d with
      | Raise e => (Raise e, n', d)
      | Ok (ticket_id, d') =>
          match db.select_by_id d' ticket_id with
          | Some row => (Ok row, n', d')
          | None => (Raise TypeError, n', d)
          end
      end
  end.

(** [GET /tickets/{ticket_id}] *)
Definition get_ticket (ticket_id : Z) (d : db.Database) : result db.Row :=
  i <- db.bind_int ticket_id ;;
  match db.select_by_id d i with
  | Some row => Ok row
  | None => Raise (HTTPException 404 "Ticket not found")
  end.

(** The parameter [status] takes in the query, when the WHERE clause is
    there at all. *)
Definition where_status (status : option string) : result (option string) :=
  if truthy status then db.bind_opt status else Ok None.

(** [GET /tickets], the handler body: the parameters are [status], when
    it is given and not empty, then [limit] and [offset]. *)
Definition list_tickets (status : option string) (limit offset : Z)
    (d : db.Database) : result (list db.Row) :=
  s <- where_status status ;;
  l <- db.bind_int limit ;;
  o <- db.bind_int offset ;;
  Ok (db.select_tickets s l o d).

(** [GET /tickets] with the declared query parameters:
    [limit = Query(20, ge=1, le=100)], [offset = Query(0, ge=0)]. *)
Definition list_tickets_request (status : option string) (limit offset : option Z)
    (d : db.Database) : result (list db.Row) :=
  let limit := match limit with Some l => l | None => 20 end in
  let offset := match offset with Some o => o | None => 0 end in
  if (1 <=? limit) && (limit <=? 100) && (0 <=? offset)
  then list_tickets status limit offset d
  else Raise RequestValidationError.

(** [PATCH /tickets/{ticket_id}], the handler body. *)
Definition update_ticket (ticket_id : Z) (patch : models.TicketUpdate)
    (now : string) (d : db.Database) : result db.Row * db.Database :=
  let data := models.model_dump_exclude_unset patch in
  match data with
  | [] => (Raise (HTTPException 400 "No fields provided to update"), d)
  | _ :: _ =>
      match db.update_tickets data ticket_id now d with
      | Raise e => (Raise e, d)
      | Ok (d', rowcount) =>
          if rowcount =? 0
          then (Raise (HTTPException 404 "Ticket not found"), d)
          else
            match db.select_by_id d' ticket_id with
            | Some row => (Ok row, d')
            | None => (Raise TypeError, d)
            end
      end
  end.

(** [PATCH /tickets/{ticket_id}] with its body validated against
    [TicketUpdate] first. *)
Definition update_ticket_request (ticket_id : Z) (body : json number)
    (now : string) (d : db.Database) : result db.Row * db.Database :=
  match models.validate_TicketUpdate body with
  | Raise e => (Raise e, d)
  | Ok patch => update_ticket ticket_id patch now d
  end.

End Service.

Section Requests.
Context {World number : Type}.
Variable provider : ai.ChatRequest -> World -> ai.Reply * World.
Variable json_loads : string -> option (json number).
Variable number_text : number -> option string.
Variable validate_email : string -> option string.

(** [POST /tickets] with its body validated against [TicketCreate]
    first. *)
Definition create_ticket_request (api_key : option string) (now : string)
    (body : json number) (n : ai.Net World) (d : db.Database)
  : result db.Row * ai.Net World * db.Database :=
  match models.validate_TicketCreate validate_email body with
  | Raise e => (Raise e, n, d)
  | Ok ticket =>
      create_ticket provider json_loads number_text api_key now ticket n d
  end.
End Requests.

(** [startup_event]: runs [init_db] when the API starts. *)
Definition startup_event (file : option db.Database) : db.Database :=
  db.init_db file.

(** [GET /] *)
Definition health_check : list (string * string) :=
  [("status", "ok"); ("service", "AI Support Ticket Automation API")].

End main.

(** ** A scripted provider and sample data

    Concrete collaborators on which the service can be run: a provider
    that replays a script of replies, a [json.loads] that knows a few
    texts, and Python's [int] as the only numbers. *)

Module fixture.

Definition number : Type := Z.

Definition number_text (n : number) : option string :=
  if (- 2 ^ 63 <=? n) && (n <? 2 ^ 63)
  then Some (DecimalString.NilZero.string_of_int (Z.to_int n))
  else None.

(** The world is the list of replies still to be played; when it runs
    out the connection is refused. *)
Definition World : Type := list ai.Reply.

Definition provider (req : ai.ChatRequest) (w : World) : ai.Reply * World :=
  match w with
  | [] => (ai.Unavailable "connection refused", [])
  | r :: rest => (r, rest)
  end.

Definition quote : string := String "034"%char EmptyString.

(** The text [{"priority": "high", "category": "technical",
    "summary": {"text": "printer"}, "suggested_reply": "Restart it."}]. *)
Definition nested_summary_text : string :=
  "{" ++ quote ++ "priority" ++ quote ++ ": " ++ quote ++ "high" ++ quote ++ ", "
  ++ quote ++ "category" ++ quote ++ ": " ++ quote ++ "technical" ++ quote ++ ", "
  ++ quote ++ "summary" ++ quote ++ ": {" ++ quote ++ "text" ++ quote ++ ": "
  ++ quote ++ "printer" ++ quote ++ "}, "
  ++ quote ++ "suggested_reply" ++ quote ++ ": " ++ quote ++ "Restart it." ++ quote ++ "}".

Definition nested_summary : json number :=
  JDict [("priority", JString "high"); ("category", JString "technical");
         ("summary", JDict [("text", JString "printer")]);
         ("suggested_reply", JString "Restart it.")].

(** The text [{"priority": "high", "category": "technical",
    "summary": "Printer is down", "suggested_reply": "Restart it."}]. *)
Definition good_text : string :=
  "{" ++ quote ++ "priority" ++ quote ++ ": " ++ quote ++ "high" ++ quote ++ ", "
  ++ quote ++ "category" ++ quote ++ ": " ++ quote ++ "technical" ++ quote ++ ", "
  ++ quote ++ "summary" ++ quote ++ ": " ++ quote ++ "Printer is down" ++ quote ++ ", "
  ++ quote ++ "suggested_reply" ++ quote ++ ": " ++ quote ++ "Restart it." ++ quote ++ "}".

Definition good : json number :=
  JDict [("priority", JString "high"); ("category", JString "technical");
         ("summary", JString "Printer is down");
         ("suggested_reply", JString "Restart it.")].

Definition json_loads (text : string) : option (json number) :=
  if String.eqb text good_text then Some good
  else if String.eqb text nested_summary_text then Some nested_summary
  else if String.eqb text "[]" then Some (JList [])
  else None.

Definition net (script : World) : ai.Net World :=
  {| ai.world := script; ai.sent := [] |}.

Definition printer_ticket : models.TicketCreate :=
  {| models.source := "web";
     models.customer_name := Some "Ada";
     models.customer_email := Some "ada@example.com";
     models.subject := "Printer";
     models.body := "It is broken" |}.

Definition empty_db : db.Database := db.init_db None.

Definition t0 : string := "2024-05-01 10:00:00".
Definition t1 : string := "2024-05-01 10:00:07".

(** The row and the table after one ticket was created at [t0] while the
    provider was unreachable. *)
Definition first_row : db.Row :=
  {| db.id := 1; db.source := "web"; db.customer_name := Some "Ada";
     db.customer_email := Some "ada@example.com";
     db.subject := "Printer"; db.body := "It is broken";
     db.status := "new"; db.priority := None; db.category := None;
     db.summary := None; db.suggested_reply := None;
     db.created_at := t0; db.updated_at := t0 |}.

Definition one_ticket_db : db.Database :=
  {| db.tickets := [first_row]; db.sqlite_sequence := 1 |}.


Definition lower (c : ascii) : ascii :=
  let n := N_of_ascii c in
  if ((65 <=? n) && (n <=? 90))%N then ascii_of_N (n + 32) else c.

Fixpoint lower_all (s : string) : string :=
  match s with
  | EmptyString => EmptyString
  | String c rest => String (lower c) (lower_all rest)
  end.

(** An e-mail validator that, like the one behind [EmailStr], keeps the
    local part and writes the domain in lower case; a text without an at
    sign is no address. *)
Fixpoint validate_email (s : string) : option string :=
  match s with
  | EmptyString => None
  | String c rest =>
      if Ascii.eqb c "@"%char then Some (String c (lower_all rest))
      else option_map (String c) (validate_email rest)
  end.

End fixture.

(** ** Vocabulary of the properties *)

(** The row an INSERT adds to database [d]. *)
Definition created_row (now : string) (ticket : models.TicketCreate)
    (p c s r : option string) (d : db.Database) : db.Row :=
  {| db.id := db.next_id d;
     db.source := models.source ticket;
     db.customer_name := models.customer_name ticket;
     db.customer_email := models.customer_email ticket;
     db.subject := models.subject ticket;
     db.body := models.body ticket;
     db.status := "new";
     db.priority := p; db.category := c;
     db.summary := s; db.suggested_reply := r;
     db.created_at := now; db.updated_at := now |}.

Definition with_row (d : db.Database) (row : db.Row) : db.Database :=
  {| db.tickets := db.tickets d ++ [row]; db.sqlite_sequence := db.id row |}.

(** What [create_ticket] holds in [ai_data] after its [try]. *)
Definition ai_data_of {number : Type} (triage : result (json number)) : json number :=
  match triage with
  | Ok v => v
  | Raise _ => main.no_ai_data
  end.

(** Texts sqlite3 can bind. *)
Definition option_encodable (v : option string) : bool :=
  match v with
  | Some s => encodable s
  | None => true
  end.

Definition ticket_encodable (t : models.TicketCreate) : bool :=
  encodable (models.source t) && option_encodable (models.customer_name t)
  && option_encodable (models.customer_email t)
  && encodable (models.subject t) && encodable (models.body t).

Definition patch_encodable (p : models.TicketUpdate) : bool :=
  forallb (fun set => option_encodable (snd set))
    (models.model_dump_exclude_unset p).

(** What one reply amounts to once [json.loads] has seen its content, and
    whether the client sends the request again after it. *)
Definition outcome_of {number : Type} (json_loads : string -> option (json number))
    (reply : ai.Reply) : result (json number) :=
  match reply with
  | ai.Completion None => Raise TypeError
  | ai.Completion (Some text) =>
      match json_loads text with
      | Some v => Ok v
      | None => Raise JSONDecodeError
      end
  | ai.Rejected detail | ai.Unavailable detail => Raise (CompletionError detail)
  end.

Definition retried (reply : ai.Reply) : bool :=
  match reply with
  | ai.Unavailable _ => true
  | _ => false
  end.

(** One call of the client as the world sees it: the request goes out
    once, a second time when the provider was unavailable, a third time
    when it was unavailable again, and the last reply stands. Yields the
    outcome, the world afterwards and how often the request went out. *)
Definition attempt {World number : Type}
    (provider : ai.ChatRequest -> World -> ai.Reply * World)
    (json_loads : string -> option (json number))
    (req : ai.ChatRequest) (w : World) : result (json number) * World * nat :=
  let (r1, w1) := provider req w in
  if negb (retried r1) then (outcome_of json_loads r1, w1, 1%nat)
  else
    let (r2, w2) := provider req w1 in
    if negb (retried r2) then (outcome_of json_loads r2, w2, 2%nat)
    else
      let (r3, w3) := provider req w2 in
      (outcome_of json_loads r3, w3, 3%nat).

(** The status parameter can be bound, when the query has it at all. *)
Definition status_encodable (status : option string) : bool :=
  if truthy status then option_encodable status else true.

(** The status the WHERE clause compares with, if any. *)
Definition filter_of (status : option string) : option string :=
  if truthy status then status else None.

(** A row with the set fields of a patch written over it. *)
Definition patched (p : models.TicketUpdate) (r : db.Row) : db.Row :=
  {| db.id := db.id r; db.source := db.source r;
     db.customer_name := db.customer_name r;
     db.customer_email := db.customer_email r;
     db.subject := db.subject r; db.body := db.body r;
     db.status :=
       match models.status p with Some (Some s) => s | _ => db.status r end;
     db.priority :=
       match models.priority p with Some v => v | None => db.priority r end;
     db.category :=
       match models.category p with Some v => v | None => db.category r end;
     db.summary :=
       match models.summary p with Some v => v | None => db.summary r end;
     db.suggested_reply :=
       match models.suggested_reply p with
       | Some v => v
       | None => db.suggested_reply r
       end;
     db.created_at := db.created_at r; db.updated_at := db.updated_at r |}.

(** The rows of the table after a patch reached ticket [ticket_id]. *)
Definition rows_after_update (p : models.TicketUpdate) (ticket_id : Z)
    (now : string) (rows : list db.Row) : list db.Row :=
  map (fun r => if db.id r =? ticket_id
                then db.tickets_updated_at now (patched p r) else r) rows.

(** The value of a column a caller may set, by column name. *)
Definition column_value (column : string) (r : db.Row) : option string :=
  if String.eqb column "status" then Some (db.status r)
  else if String.eqb column "priority" then db.priority r
  else if String.eqb column "category" then db.category r
  else if String.eqb column "summary" then db.summary r
  else if String.eqb column "suggested_reply" then db.suggested_reply r
  else None.





(** The value a triage dict gives for a key when it is a text. *)
Definition text_of {number : Type} (v : option (json number)) : option string :=
  match v with
  | Some (JString s) => Some s
  | _ => None
  end.


(** The columns no handler ever writes after the INSERT. *)
Definition same_ticket (r r' : db.Row) : Prop :=
  db.id r' = db.id r /\ db.source r' = db.source r /\
  db.customer_name r' = db.customer_name r /\
  db.customer_email r' = db.customer_email r /\
  db.subject r' = db.subject r /\ db.body r' = db.body r /\
  db.created_at r' = db.created_at r.

(** Two patches sent one after the other, as one patch: a field set by
    the second wins. *)
Definition later_field (first second : option (option string))
  : option (option string) :=
  match second with
  | Some _ => second
  | None => first
  end.

Definition merge_patches (p1 p2 : models.TicketUpdate) : models.TicketUpdate :=
  {| models.status := later_field (models.status p1) (models.status p2);
     models.priority := later_field (models.priority p1) (models.priority p2);
     models.category := later_field (models.category p1) (models.category p2);
     models.summary := later_field (models.summary p1) (models.summary p2);
     models.suggested_reply :=
       later_field (models.suggested_reply p1) (models.suggested_reply p2) |}.

(** A value the validation of [TicketUpdate] lets through for a field
    with the given literals ([None]: any text). *)
Definition field_accepts {number : Type} (allowed : option (list string))
    (v : option (json number)) : bool :=
  match v with
  | None | Some JNull => true
  | Some (JString s) =>
      match allowed with
      | Some literals => models.is_literal literals s
      | None => true
      end
  | Some _ => false
  end.

(** The tickets of a status, as the listing with that filter sees them. *)
Definition with_status (s : string) (rows : list db.Row) : list db.Row :=
  filter (fun r => String.eqb (db.status r) s) rows.

(** ** Runs of the service

    The requests that can write, and the state after a sequence of them,
    each served at the clock reading it comes with. [GET] requests leave
    the state as it is. *)

Inductive call (number : Type) : Type :=
| POST_tickets (body : json number)
| PATCH_ticket (ticket_id : Z) (body : json number).
Arguments POST_tickets {number} body.
Arguments PATCH_ticket {number} ticket_id body.

Section Runs.
Context {World number : Type}.
Variable provider : ai.ChatRequest -> World -> ai.Reply * World.
Variable json_loads : string -> option (json number).
Variable number_text : number -> option string.
Variable validate_email : string -> option string.
Variable api_key : option string.

Definition serve (now : string) (c : call number)
    (st : ai.Net World * db.Database) : ai.Net World * db.Database :=
  match c with
  | POST_tickets body =>
      let '(_, n', d') :=
        main.create_ticket_request provider json_loads number_text
          validate_email api_key now body (fst st) (snd st) in
      (n', d')
  | PATCH_ticket ticket_id body =>
      (fst st, snd (main.update_ticket_request ticket_id body now (snd st)))
  end.

Fixpoint run (calls : list (string * call number))
    (st : ai.Net World * db.Database) : ai.Net World * db.Database :=
  match calls with
  | [] => st
  | (now, c) :: rest => run rest (serve now c st)
  end.

(** The clock never goes back: each reading is at or after the one
    before, starting from [clock]. *)
Fixpoint chronological (clock : string) (calls : list (string * call number)) : Prop :=
  match calls with
  | [] => True
  | (now, _) :: rest => String.leb clock now = true /\ chronological now rest
  end.

Fixpoint last_clock (clock : string) (calls : list (string * call number)) : string :=
  match calls with
  | [] => clock
  | (now, _) :: rest => last_clock now rest
  end.
End Runs.

(** The ids 1, 2, ..., n. *)
Definition first_ids (n : nat) : list Z := map Z.of_nat (seq 1 n).

(** What a run keeps for every stored ticket, [clock] being the latest
    reading: a status out of the enum, and timestamps in order. *)
Definition in_order (clock : string) (r : db.Row) : Prop :=
  In (db.status r) models.status_literals /\
  String.leb (db.created_at r) (db.updated_at r) = true /\
  String.leb (db.updated_at r) clock = true.

(** The table holds the ids 1, 2, ..., n in this order and the
    AUTOINCREMENT counter stands at n. *)
Definition consecutive_ids (d : db.Database) : Prop :=
  map db.id (db.tickets d) = first_ids (List.length (db.tickets d)) /\
  db.sqlite_sequence d = Z.of_nat (List.length (db.tickets d)).

(** More sample data: a creation body, a table of two tickets and two
    patches. *)

Module sample.

Definition validate_email : string -> option string := fixture.validate_email.

Definition printer_body : json fixture.number :=
  JDict [("source", JString "web"); ("customer_email", JString "ada@example.com");
         ("subject", JString "Printer"); ("body", JString "It is broken")].

Definition second_row : db.Row :=
  {| db.id := 2; db.source := "web"; db.customer_name := Some "Ada";
     db.customer_email := Some "ada@example.com";
     db.subject := "Printer"; db.body := "It is broken";
     db.status := "new"; db.priority := None; db.category := None;
     db.summary := None; db.suggested_reply := None;
     db.created_at := fixture.t1; db.updated_at := fixture.t1 |}.

Definition two_ticket_db : db.Database :=
  {| db.tickets := [fixture.first_row; second_row]; db.sqlite_sequence := 2 |}.

Definition resolve : models.TicketUpdate :=
  {| models.status := Some (Some "resolved"); models.priority := None;
     models.category := None; models.summary := None;
     models.suggested_reply := None |}.

Definition escalate : models.TicketUpdate :=
  {| models.status := Some (Some "open"); models.priority := Some (Some "high");
     models.category := None; models.summary := Some None;
     models.suggested_reply := None |}.

End sample.


(** Two requests for a sample run. *)
Definition sample_calls : list (string * call fixture.number) :=
  [(fixture.t0, POST_tickets sample.printer_body);
   (fixture.t0, PATCH_ticket 1 (JDict [("status", JString "open")]));
   (fixture.t1, POST_tickets (JDict [("source", JString "email")]));
   (fixture.t1, POST_tickets sample.printer_body)].

(** * Properties *)

(** ** The store *)

Lemma max_id_bound (rows : list db.Row) (r : db.Row) :
  In r rows -> db.id r <= db.max_id rows.
Proof.
  induction rows as [|x rows IH]; simpl; intros H.
  - contradiction.
  - destruct H as [-> | H]; [lia | specialize (IH H); lia].
Qed.

Lemma next_id_fresh (d : db.Database) (r : db.Row) :
  In r (db.tickets d) -> db.id r < db.next_id d.
Proof.
  intros H. apply max_id_bound in H. unfold db.next_id. lia.
Qed.

Lemma max_id_nonneg (rows : list db.Row) : 0 <= db.max_id rows.
Proof. induction rows as [|x rows IH]; simpl; lia. Qed.

Lemma next_id_positive (d : db.Database) : 1 <= db.next_id d.
Proof. unfold db.next_id. pose proof (max_id_nonneg (db.tickets d)). lia. Qed.

Lemma find_appended (rows : list db.Row) (row : db.Row) :
  (forall r, In r rows -> db.id r <> db.id row) ->
  find (fun r => db.id r =? db.id row) (rows ++ [row]) = Some row.
Proof.
  induction rows as [|x rows IH]; simpl; intros fresh.
  - now rewrite Z.eqb_refl.
  - destruct (Z.eqb_spec (db.id x) (db.id row)) as [E | _].
    + exfalso. apply (fresh x); auto.
    + apply IH. intros r Hr. apply fresh. now right.
Qed.

Lemma select_created (d : db.Database) (row : db.Row) :
  db.id row = db.next_id d ->
  db.select_by_id (with_row d row) (db.id row) = Some row.
Proof.
  intros Hid. unfold db.select_by_id, with_row; simpl.
  apply find_appended. intros r Hr. apply next_id_fresh in Hr. lia.
Qed.

Lemma find_app_miss {A : Type} (f : A -> bool) (l : list A) (x : A) :
  f x = false -> find f (l ++ [x]) = find f l.
Proof.
  intros H. induction l as [|y l IH]; simpl; [now rewrite H|].
  destruct (f y); [reflexivity | exact IH].
Qed.

(** ** Binding *)

Lemma int64_bounds (z : Z) : db.int64 z = true <-> - 2 ^ 63 <= z < 2 ^ 63.
Proof. unfold db.int64. rewrite andb_true_iff, Z.leb_le, Z.ltb_lt. tauto. Qed.

Lemma bind_int_cases (z : Z) :
  db.bind_int z = if db.int64 z then Ok z else Raise OverflowError.
Proof. reflexivity. Qed.

Lemma bind_str_cases (s : string) :
  db.bind_str s = if encodable s then Ok s else Raise UnicodeEncodeError.
Proof. reflexivity. Qed.

Lemma bind_opt_cases (v : option string) :
  db.bind_opt v = if option_encodable v then Ok v else Raise UnicodeEncodeError.
Proof.
  destruct v as [s|]; [|reflexivity]. simpl. unfold db.bind_str.
  now destruct (encodable s).
Qed.

Lemma bind_values_cases (sets : list (string * option string)) :
  db.bind_values sets
  = if forallb (fun set => option_encodable (snd set)) sets
    then Ok sets else Raise UnicodeEncodeError.
Proof.
  induction sets as [|[column value] sets IH]; [reflexivity|].
  cbn [db.bind_values forallb snd]. rewrite bind_opt_cases, IH.
  destruct (option_encodable value); [|reflexivity]. cbn [py.bind andb].
  now destruct (forallb _ sets).
Qed.

Lemma ticket_parameters_cases (t : models.TicketCreate) :
  main.ticket_parameters t
  = if ticket_encodable t then Ok t else Raise UnicodeEncodeError.
Proof.
  destruct t as [so cn ce su bo].
  unfold main.ticket_parameters, ticket_encodable. cbn [models.source
    models.customer_name models.customer_email models.subject models.body].
  rewrite !bind_str_cases, !bind_opt_cases.
  destruct (encodable so); [|reflexivity].
  destruct (option_encodable cn); [|reflexivity].
  destruct (option_encodable ce); [|reflexivity].
  destruct (encodable su); [|reflexivity].
  now destruct (encodable bo).
Qed.

(** ** Creation *)

Section CreateFacts.
Context {World number : Type}.
Variable provider : ai.ChatRequest -> World -> ai.Reply * World.
Variable json_loads : string -> option (json number).
Variable number_text : number -> option string.

Local Abbreviation analyze := (ai.analyze_ticket provider json_loads).
Local Abbreviation create := (main.create_ticket provider json_loads number_text).

Lemma parameters_ok_ticket (ticket t : models.TicketCreate) (v : json number) a :
  main.parameters number_text ticket v = Ok (t, a) ->
  t = ticket /\ ticket_encodable ticket = true.
Proof.
  unfold main.parameters. destruct (main.ai_values v); [|discriminate].
  cbn [py.bind]. rewrite ticket_parameters_cases.
  destruct (ticket_encodable ticket); [|discriminate]. cbn [py.bind].
  destruct (main.ai_parameters number_text a0); [|discriminate].
  intros [= <- _]. now split.
Qed.

Lemma create_ticket_stores api_key now ticket n d triage n' t p c s r :
  analyze api_key (models.subject ticket) (models.body ticket) n = (triage, n') ->
  main.parameters number_text ticket (ai_data_of triage) = Ok (t, (p, c, s, r)) ->
  db.next_id d < 2 ^ 63 ->
  create api_key now ticket n d
  = (Ok (created_row now ticket p c s r d), n',
     with_row d (created_row now ticket p c s r d)).
Proof.
  intros Ha Hp Hid. unfold main.create_ticket.
  rewrite Ha. unfold ai_data_of in Hp. rewrite Hp.
  apply parameters_ok_ticket in Hp. destruct Hp as [-> _].
  unfold db.insert_ticket.
  destruct (Z.ltb_spec (db.next_id d) (2 ^ 63)); [|lia].
  pose proof (select_created d (created_row now ticket p c s r d) eq_refl) as Hs.
  unfold with_row, created_row in *. simpl in Hs. rewrite Hs. reflexivity.
Qed.

Lemma create_ticket_full api_key now ticket n d triage n' x :
  analyze api_key (models.subject ticket) (models.body ticket) n = (triage, n') ->
  main.parameters number_text ticket (ai_data_of triage) = Ok x ->
  2 ^ 63 <= db.next_id d ->
  create api_key now ticket n d
  = (Raise (OperationalError "database or disk is full"), n', d).
Proof.
  intros Ha Hp Hid. unfold main.create_ticket.
  rewrite Ha. unfold ai_data_of in Hp. rewrite Hp.
  destruct x as [t [[[p c] s] r]]. unfold db.insert_ticket.
  destruct (Z.ltb_spec (db.next_id d) (2 ^ 63)); [lia | reflexivity].
Qed.

Lemma create_ticket_raises api_key now ticket n d triage n' e :
  analyze api_key (models.subject ticket) (models.body ticket) n = (triage, n') ->
  main.parameters number_text ticket (ai_data_of triage) = Raise e ->
  create api_key now ticket n d = (Raise e, n', d).
Proof.
  intros Ha Hp. unfold main.create_ticket.
  rewrite Ha. unfold ai_data_of in Hp. now rewrite Hp.
Qed.

Lemma create_ticket_ok_inv api_key now ticket n d row n' d' :
  create api_key now ticket n d = (Ok row, n', d') ->
  exists p c s r,
    row = created_row now ticket p c s r d /\ d' = with_row d row /\
    db.next_id d < 2 ^ 63 /\ ticket_encodable ticket = true.
Proof.
  intros H.
  destruct (analyze api_key (models.subject ticket) (models.body ticket) n)
    as [triage n1] eqn:Ha.
  destruct (main.parameters number_text ticket (ai_data_of triage))
    as [[t [[[p c] s] r]] | e] eqn:Hp.
  - destruct (Z.ltb_spec (db.next_id d) (2 ^ 63)) as [Hid | Hid].
    + rewrite (create_ticket_stores _ _ _ _ _ _ _ _ _ _ _ _ Ha Hp Hid) in H.
      injection H as <- <- <-. exists p, c, s, r.
      apply parameters_ok_ticket in Hp. now destruct Hp.
    + rewrite (create_ticket_full _ _ _ _ _ _ _ _ Ha Hp Hid) in H. discriminate.
  - rewrite (create_ticket_raises _ _ _ _ _ _ _ _ Ha Hp) in H. discriminate.
Qed.

Lemma create_ticket_raise_inv api_key now ticket n d e n' d' :
  create api_key now ticket n d = (Raise e, n', d') ->
  d' = d /\
  exists triage,
    analyze api_key (models.subject ticket) (models.body ticket) n = (triage, n') /\
    (main.parameters number_text ticket (ai_data_of triage) = Raise e \/
     (e = OperationalError "database or disk is full" /\
      2 ^ 63 <= db.next_id d)).
Proof.
  intros H.
  destruct (analyze api_key (models.subject ticket) (models.body ticket) n)
    as [triage n1] eqn:Ha.
  destruct (main.parameters number_text ticket (ai_data_of triage))
    as [[t [[[p c] s] r]] | e1] eqn:Hp.
  - destruct (Z.ltb_spec (db.next_id d) (2 ^ 63)) as [Hid | Hid].
    + rewrite (create_ticket_stores _ _ _ _ _ _ _ _ _ _ _ _ Ha Hp Hid) in H.
      discriminate.
    + rewrite (create_ticket_full _ _ _ _ _ _ _ _ Ha Hp Hid) in H.
      injection H as <- <- <-. split; [reflexivity|]. exists triage.
      split; [reflexivity|]. right. now split.
  - rewrite (create_ticket_raises _ _ _ _ _ _ _ _ Ha Hp) in H.
    injection H as <- <- <-. split; [reflexivity|]. exists triage.
    split; [reflexivity|]. now left.
Qed.

Lemma no_ai_data_parameters (ticket : models.TicketCreate) :
  main.parameters number_text ticket main.no_ai_data
  = if ticket_encodable ticket then Ok (ticket, (None, None, None, None))
    else Raise UnicodeEncodeError.
Proof.
  unfold main.parameters. cbn [main.ai_values main.no_ai_data py.get dict_get
    String.eqb Ascii.eqb Bool.eqb py.bind]. simpl.
  rewrite ticket_parameters_cases. now destruct (ticket_encodable ticket).
Qed.

End CreateFacts.

(** ** Partial update *)

Lemma assign_all_patched (p : models.TicketUpdate) (r : db.Row) :
  models.status p <> Some None ->
  db.assign_all (models.model_dump_exclude_unset p) r = Ok (patched p r).
Proof.
  destruct r, p as [st pr ca su sr]; simpl; intros Hst.
  destruct st as [[s|]|]; [ | contradiction | ];
    destruct pr as [?|], ca as [?|], su as [?|], sr as [?|]; reflexivity.
Qed.

Lemma assign_all_null_status (p : models.TicketUpdate) (r : db.Row) :
  models.status p = Some None ->
  db.assign_all (models.model_dump_exclude_unset p) r
  = Raise (IntegrityError "NOT NULL constraint failed: tickets.status").
Proof.
  destruct p as [st pr ca su sr]; simpl; intros ->. reflexivity.
Qed.

Lemma update_rows_patched (p : models.TicketUpdate) (ticket_id : Z)
    (now : string) (rows : list db.Row) :
  models.status p <> Some None ->
  db.update_rows (models.model_dump_exclude_unset p) ticket_id now rows
  = Ok (rows_after_update p ticket_id now rows,
        Z.of_nat (List.length (filter (fun r => db.id r =? ticket_id) rows))).
Proof.
  intros Hst. induction rows as [|r rows IH]; [reflexivity|].
  cbn [db.update_rows rows_after_update map filter]. rewrite IH.
  destruct (db.id r =? ticket_id).
  - rewrite assign_all_patched by assumption. cbn [py.bind fst snd List.length].
    do 2 f_equal. lia.
  - reflexivity.
Qed.

Lemma update_rows_null_status (p : models.TicketUpdate) (ticket_id : Z)
    (now : string) (rows : list db.Row) (old : db.Row) :
  models.status p = Some None ->
  find (fun r => db.id r =? ticket_id) rows = Some old ->
  db.update_rows (models.model_dump_exclude_unset p) ticket_id now rows
  = Raise (IntegrityError "NOT NULL constraint failed: tickets.status").
Proof.
  intros Hst. induction rows as [|r rows IH]; [discriminate|].
  cbn [db.update_rows find]. destruct (db.id r =? ticket_id).
  - intros _. now rewrite assign_all_null_status.
  - intros H. now rewrite (IH H).
Qed.

Lemma update_rows_absent (sets : list (string * option string)) (ticket_id : Z)
    (now : string) (rows : list db.Row) :
  find (fun r => db.id r =? ticket_id) rows = None ->
  db.update_rows sets ticket_id now rows = Ok (rows, 0).
Proof.
  induction rows as [|r rows IH]; [reflexivity|].
  cbn [db.update_rows find]. destruct (db.id r =? ticket_id); [discriminate|].
  intros H. now rewrite (IH H).
Qed.

Lemma find_rows_after_update (p : models.TicketUpdate) (ticket_id i : Z)
    (now : string) (rows : list db.Row) :
  find (fun r => db.id r =? i) (rows_after_update p ticket_id now rows)
  = if i =? ticket_id
    then option_map (fun r => db.tickets_updated_at now (patched p r))
           (find (fun r => db.id r =? ticket_id) rows)
    else find (fun r => db.id r =? i) rows.
Proof.
  induction rows as [|r rows IH]; simpl.
  - now destruct (i =? ticket_id).
  - rewrite IH. destruct (Z.eqb_spec (db.id r) ticket_id) as [E | N]; simpl.
    + destruct (Z.eqb_spec i ticket_id) as [-> | N'].
      * now rewrite E, Z.eqb_refl.
      * destruct (Z.eqb_spec (db.id r) i); [lia | reflexivity].
    + destruct (Z.eqb_spec i ticket_id) as [-> | N'].
      * destruct (Z.eqb_spec (db.id r) ticket_id); [lia | reflexivity].
      * reflexivity.
Qed.

Lemma filter_found_length (ticket_id : Z) (rows : list db.Row) (old : db.Row) :
  find (fun r => db.id r =? ticket_id) rows = Some old ->
  (0 < Z.of_nat (List.length (filter (fun r => db.id r =? ticket_id) rows))).
Proof.
  induction rows as [|r rows IH]; simpl; [discriminate|].
  destruct (db.id r =? ticket_id); simpl; [lia | exact IH].
Qed.

Lemma dump_nonempty (p : models.TicketUpdate) :
  models.model_dump_exclude_unset p = [] <->
  p = {| models.status := None; models.priority := None;
         models.category := None; models.summary := None;
         models.suggested_reply := None |}.
Proof.
  destruct p as [[?|] [?|] [?|] [?|] [?|]]; simpl; split; intros H;
    try discriminate; reflexivity.
Qed.

(** The UPDATE once its parameters are bound, and when they cannot be. *)
Lemma update_tickets_cases (p : models.TicketUpdate) (ticket_id : Z)
    (now : string) (d : db.Database) :
  db.update_tickets (models.model_dump_exclude_unset p) ticket_id now d
  = if negb (patch_encodable p) then Raise UnicodeEncodeError
    else if negb (db.int64 ticket_id) then Raise OverflowError
    else
      out <- db.update_rows (models.model_dump_exclude_unset p) ticket_id now
               (db.tickets d) ;;
      Ok ({| db.tickets := fst out;
             db.sqlite_sequence := db.sqlite_sequence d |}, snd out).
Proof.
  unfold db.update_tickets, patch_encodable. rewrite bind_values_cases.
  destruct (forallb _ (models.model_dump_exclude_unset p)); [|reflexivity].
  cbn [py.bind negb]. rewrite bind_int_cases.
  now destruct (db.int64 ticket_id).
Qed.

(** What [update_ticket] does to a ticket that exists, for a patch that
    sets something and does not null [status], when the parameters can
    be bound. *)
Lemma update_ticket_existing (p : models.TicketUpdate) (ticket_id : Z)
    (now : string) (d : db.Database) (old : db.Row) :
  models.model_dump_exclude_unset p <> [] ->
  patch_encodable p = true ->
  db.int64 ticket_id = true ->
  models.status p <> Some None ->
  db.select_by_id d ticket_id = Some old ->
  main.update_ticket ticket_id p now d
  = (Ok (db.tickets_updated_at now (patched p old)),
     {| db.tickets := rows_after_update p ticket_id now (db.tickets d);
        db.sqlite_sequence := db.sqlite_sequence d |}).
Proof.
  intros Hne He Hi Hst Hold. unfold main.update_ticket.
  destruct (models.model_dump_exclude_unset p) as [|x l] eqn:Hd; [congruence|].
  rewrite <- Hd, update_tickets_cases, He, Hi. cbn [negb].
  rewrite update_rows_patched by assumption. cbn [py.bind fst snd].
  pose proof (filter_found_length _ _ _ Hold) as Hpos.
  destruct (Z.eqb_spec (Z.of_nat (List.length
              (filter (fun r => db.id r =? ticket_id) (db.tickets d)))) 0);
    [lia|].
  unfold db.select_by_id in *. cbn [db.tickets].
  rewrite find_rows_after_update, Z.eqb_refl, Hold. reflexivity.
Qed.

Lemma update_ticket_null_status (p : models.TicketUpdate) (ticket_id : Z)
    (now : string) (d : db.Database) (old : db.Row) :
  patch_encodable p = true ->
  db.int64 ticket_id = true ->
  models.status p = Some None ->
  db.select_by_id d ticket_id = Some old ->
  main.update_ticket ticket_id p now d
  = (Raise (IntegrityError "NOT NULL constraint failed: tickets.status"), d).
Proof.
  intros He Hi Hst Hold. unfold main.update_ticket.
  destruct (models.model_dump_exclude_unset p) as [|x l] eqn:Hd.
  - apply dump_nonempty in Hd. subst p. discriminate.
  - rewrite <- Hd, update_tickets_cases, He, Hi. cbn [negb].
    now rewrite (update_rows_null_status _ _ _ _ _ Hst Hold).
Qed.

Lemma update_ticket_absent (p : models.TicketUpdate) (ticket_id : Z)
    (now : string) (d : db.Database) :
  models.model_dump_exclude_unset p <> [] ->
  patch_encodable p = true ->
  db.int64 ticket_id = true ->
  db.select_by_id d ticket_id = None ->
  main.update_ticket ticket_id p now d
  = (Raise (HTTPException 404 "Ticket not found"), d).
Proof.
  intros Hne He Hi Hnone. unfold main.update_ticket.
  destruct (models.model_dump_exclude_unset p) as [|x l] eqn:Hd; [congruence|].
  rewrite <- Hd, update_tickets_cases, He, Hi. cbn [negb].
  now rewrite (update_rows_absent _ _ _ _ Hnone).
Qed.

Lemma update_ticket_unbound (p : models.TicketUpdate) (ticket_id : Z)
    (now : string) (d : db.Database) :
  models.model_dump_exclude_unset p <> [] ->
  main.update_ticket ticket_id p now d
  = if negb (patch_encodable p) then (Raise UnicodeEncodeError, d)
    else if negb (db.int64 ticket_id) then (Raise OverflowError, d)
    else main.update_ticket ticket_id p now d.
Proof.
  intros Hne. destruct (patch_encodable p) eqn:He; cbn [negb].
  - destruct (db.int64 ticket_id) eqn:Hi; cbn [negb]; [reflexivity|].
    unfold main.update_ticket.
    destruct (models.model_dump_exclude_unset p) as [|x l] eqn:Hd; [congruence|].
    now rewrite <- Hd, update_tickets_cases, He, Hi.
  - unfold main.update_ticket.
    destruct (models.model_dump_exclude_unset p) as [|x l] eqn:Hd; [congruence|].
    now rewrite <- Hd, update_tickets_cases, He.
Qed.

(** The answer of [update_ticket], read off the patch, the id and the row
    the id selects. *)
Lemma update_ticket_answer (p : models.TicketUpdate) (ticket_id : Z)
    (now : string) (d : db.Database) :
  fst (main.update_ticket ticket_id p now d)
  = match models.model_dump_exclude_unset p with
    | [] => Raise (HTTPException 400 "No fields provided to update")
    | _ :: _ =>
        if negb (patch_encodable p) then Raise UnicodeEncodeError
        else if negb (db.int64 ticket_id) then Raise OverflowError
        else
          match db.select_by_id d ticket_id with
          | None => Raise (HTTPException 404 "Ticket not found")
          | Some old =>
              match models.status p with
              | Some None =>
                  Raise (IntegrityError "NOT NULL constraint failed: tickets.status")
              | _ => Ok (db.tickets_updated_at now (patched p old))
              end
          end
    end.
Proof.
  destruct (models.model_dump_exclude_unset p) as [|x l] eqn:Hd.
  - unfold main.update_ticket. now rewrite Hd.
  - assert (Hne : models.model_dump_exclude_unset p <> []) by congruence.
    rewrite (update_ticket_unbound p ticket_id now d Hne).
    destruct (patch_encodable p) eqn:He; cbn [negb]; [|reflexivity].
    destruct (db.int64 ticket_id) eqn:Hi; cbn [negb]; [|reflexivity].
    destruct (db.select_by_id d ticket_id) as [old|] eqn:Hold.
    + destruct (models.status p) as [[s|]|] eqn:Hst.
      * rewrite (update_ticket_existing p ticket_id now d old); try congruence.
        reflexivity.
      * now rewrite (update_ticket_null_status p ticket_id now d old).
      * rewrite (update_ticket_existing p ticket_id now d old); try congruence.
        reflexivity.
    + now rewrite (update_ticket_absent p ticket_id now d).
Qed.

(** The database after [update_ticket]: written when the answer is a
    record, the one given otherwise. *)
Lemma update_ticket_database (p : models.TicketUpdate) (ticket_id : Z)
    (now : string) (d : db.Database) :
  snd (main.update_ticket ticket_id p now d)
  = match fst (main.update_ticket ticket_id p now d) with
    | Ok _ => {| db.tickets := rows_after_update p ticket_id now (db.tickets d);
                 db.sqlite_sequence := db.sqlite_sequence d |}
    | Raise _ => d
    end.
Proof.
  destruct (models.model_dump_exclude_unset p) as [|x l] eqn:Hd.
  - unfold main.update_ticket. now rewrite Hd.
  - assert (Hne : models.model_dump_exclude_unset p <> []) by congruence.
    rewrite (update_ticket_unbound p ticket_id now d Hne).
    destruct (patch_encodable p) eqn:He; cbn [negb]; [|reflexivity].
    destruct (db.int64 ticket_id) eqn:Hi; cbn [negb]; [|reflexivity].
    destruct (db.select_by_id d ticket_id) as [old|] eqn:Hold.
    + destruct (models.status p) as [[s|]|] eqn:Hst.
      * rewrite (update_ticket_existing p ticket_id now d old); try congruence.
        reflexivity.
      * now rewrite (update_ticket_null_status p ticket_id now d old).
      * rewrite (update_ticket_existing p ticket_id now d old); try congruence.
        reflexivity.
    + now rewrite (update_ticket_absent p ticket_id now d).
Qed.

Lemma update_ticket_ok_inv (p : models.TicketUpdate) (ticket_id : Z)
    (now : string) (d d' : db.Database) (new : db.Row) :
  main.update_ticket ticket_id p now d = (Ok new, d') ->
  exists old,
    db.select_by_id d ticket_id = Some old /\
    models.model_dump_exclude_unset p <> [] /\
    patch_encodable p = true /\ db.int64 ticket_id = true /\
    models.status p <> Some None /\
    new = db.tickets_updated_at now (patched p old) /\
    d' = {| db.tickets := rows_after_update p ticket_id now (db.tickets d);
            db.sqlite_sequence := db.sqlite_sequence d |}.
Proof.
  intros H.
  pose proof (update_ticket_answer p ticket_id now d) as Ha.
  pose proof (update_ticket_database p ticket_id now d) as Hd.
  rewrite H in Ha, Hd. simpl in Ha, Hd.
  destruct (models.model_dump_exclude_unset p) as [|x l]; [discriminate|].
  destruct (patch_encodable p); [|discriminate].
  destruct (db.int64 ticket_id); [|discriminate]. cbn [negb] in Ha.
  destruct (db.select_by_id d ticket_id) as [old|]; [|discriminate].
  exists old. split; [reflexivity|]. split; [discriminate|].
  split; [reflexivity|]. split; [reflexivity|].
  destruct (models.status p) as [[s|]|]; try discriminate;
    injection Ha as ->; (split; [discriminate|]); now split.
Qed.


Lemma ids_after_update (p : models.TicketUpdate) (ticket_id : Z)
    (now : string) (rows : list db.Row) :
  map db.id (rows_after_update p ticket_id now rows) = map db.id rows.
Proof.
  unfold rows_after_update. rewrite map_map. apply map_ext.
  intros r. now destruct (db.id r =? ticket_id).
Qed.

(** ** Listing *)

Lemma string_compare_trans (a b c : string) :
  String.compare a b <> Gt -> String.compare b c <> Gt -> String.compare a c <> Gt.
Proof.
  revert b c. induction a as [|x a IH]; intros [|y b] [|z c]; simpl;
    try congruence.
  unfold Ascii.compare.
  destruct (N.compare_spec (N_of_ascii x) (N_of_ascii y)) as [Exy | Lxy | Gxy];
    destruct (N.compare_spec (N_of_ascii y) (N_of_ascii z)) as [Eyz | Lyz | Gyz];
    try congruence; intros Hab Hbc.
  - rewrite Exy, Eyz, N.compare_refl. now apply (IH b c).
  - rewrite Exy. apply N.compare_lt_iff in Lyz. now rewrite Lyz.
  - rewrite <- Eyz. apply N.compare_lt_iff in Lxy. now rewrite Lxy.
  - assert (L : (N_of_ascii x < N_of_ascii z)%N) by lia.
    apply N.compare_lt_iff in L. now rewrite L.
Qed.

Lemma string_leb_trans (a b c : string) :
  String.leb a b = true -> String.leb b c = true -> String.leb a c = true.
Proof.
  unfold String.leb. intros Hab Hbc.
  pose proof (string_compare_trans a b c) as T.
  destruct (String.compare a b), (String.compare b c), (String.compare a c);
    try reflexivity; try discriminate; exfalso; apply T; congruence.
Qed.


Lemma insert_desc_perm (r : db.Row) (l : list db.Row) :
  Permutation (db.insert_desc r l) (r :: l).
Proof.
  induction l as [|x l IH]; simpl; [reflexivity|].
  destruct (String.leb (db.created_at x) (db.created_at r)); [reflexivity|].
  rewrite IH. apply perm_swap.
Qed.

Lemma order_by_perm (rows : list db.Row) :
  Permutation (db.order_by_created_at_desc rows) rows.
Proof.
  induction rows as [|r rows IH]; simpl; [reflexivity|].
  rewrite insert_desc_perm. now constructor.
Qed.










Lemma where_status_cases (status : option string) :
  main.where_status status
  = if status_encodable status then Ok (filter_of status)
    else Raise UnicodeEncodeError.
Proof.
  unfold main.where_status, status_encodable, filter_of.
  destruct (truthy status); [|reflexivity]. apply bind_opt_cases.
Qed.

(** The answer of [list_tickets]: the rows of the query when its
    parameters can be bound. *)
Lemma list_tickets_cases (status : option string) (limit offset : Z)
    (d : db.Database) :
  main.list_tickets status limit offset d
  = if negb (status_encodable status) then Raise UnicodeEncodeError
    else if negb (db.int64 limit && db.int64 offset) then Raise OverflowError
    else Ok (db.select_tickets (filter_of status) limit offset d).
Proof.
  unfold main.list_tickets. rewrite where_status_cases, !bind_int_cases.
  destruct (status_encodable status); [|reflexivity]. cbn [py.bind negb].
  destruct (db.int64 limit); [|reflexivity]. cbn [py.bind andb].
  now destruct (db.int64 offset).
Qed.

Lemma list_tickets_ok (status : option string) (limit offset : Z)
    (d : db.Database) (rows : list db.Row) :
  main.list_tickets status limit offset d = Ok rows ->
  rows = db.select_tickets (filter_of status) limit offset d /\
  status_encodable status = true /\
  db.int64 limit = true /\ db.int64 offset = true.
Proof.
  rewrite list_tickets_cases.
  destruct (status_encodable status); [|discriminate]. cbn [negb].
  destruct (db.int64 limit), (db.int64 offset); try discriminate.
  cbn [negb andb]. intros [= <-]. repeat split.
Qed.

(** ** Validation of the update body *)

Section ValidationFacts.
Context {number : Type}.
Implicit Types (v : json number) (items : list (string * json number)).





Lemma validate_ok_fields items p :
  models.validate_TicketUpdate (JDict items) = Ok p ->
  models.literal_field models.status_literals (dict_get "status" items)
    = Ok (models.status p) /\
  models.literal_field models.priority_literals (dict_get "priority" items)
    = Ok (models.priority p) /\
  models.literal_field models.category_literals (dict_get "category" items)
    = Ok (models.category p) /\
  models.str_field (dict_get "summary" items) = Ok (models.summary p) /\
  models.str_field (dict_get "suggested_reply" items)
    = Ok (models.suggested_reply p).
Proof.
  simpl.
  destruct (models.literal_field _ (dict_get "status" items)); [|discriminate].
  destruct (models.literal_field _ (dict_get "priority" items)); [|discriminate].
  destruct (models.literal_field _ (dict_get "category" items)); [|discriminate].
  destruct (models.str_field (dict_get "summary" items)); [|discriminate].
  destruct (models.str_field (dict_get "suggested_reply" items)); [|discriminate].
  simpl. intros [= <-]. simpl. repeat split.
Qed.



End ValidationFacts.

(** ** Retrieval *)

Lemma get_ticket_cases (ticket_id : Z) (d : db.Database) :
  main.get_ticket ticket_id d
  = if db.int64 ticket_id then
      match db.select_by_id d ticket_id with
      | Some row => Ok row
      | None => Raise (HTTPException 404 "Ticket not found")
      end
    else Raise OverflowError.
Proof.
  unfold main.get_ticket. rewrite bind_int_cases.
  now destruct (db.int64 ticket_id).
Qed.

Lemma get_ticket_selected (ticket_id : Z) (d : db.Database) (row : db.Row) :
  db.int64 ticket_id = true ->
  db.select_by_id d ticket_id = Some row ->
  main.get_ticket ticket_id d = Ok row.
Proof. intros Hi Hs. now rewrite get_ticket_cases, Hi, Hs. Qed.

Lemma get_ticket_ok (ticket_id : Z) (d : db.Database) (row : db.Row) :
  main.get_ticket ticket_id d = Ok row ->
  db.int64 ticket_id = true /\ db.select_by_id d ticket_id = Some row.
Proof.
  rewrite get_ticket_cases. destruct (db.int64 ticket_id); [|discriminate].
  destruct (db.select_by_id d ticket_id); [|discriminate].
  intros [= ->]. now split.
Qed.

(** ** Requests to update *)







(** C9. A field sent as an explicit null passes validation and is part of
    the dumped patch, so the request is never answered as an empty patch
    (400) or a validation failure (422). On an existing ticket, with
    parameters sqlite3 can bind, a null [status] raises the NOT NULL
    constraint error, a server error that leaves the database as it was;
    without a null [status], a null [priority], [category], [summary] or
    [suggested_reply] is written: the column is NULL in the returned and
    in the stored row. *)
Theorem explicit_null_is_applied :
  forall (number : Type) (ticket_id : Z) (items : list (string * json number))
         (patch : models.TicketUpdate) (column : string)
         (now : string) (d : db.Database),
    In column ["status"; "priority"; "category"; "summary"; "suggested_reply"] ->
    dict_get column items = Some JNull ->
    models.validate_TicketUpdate (JDict items) = Ok patch ->
    In (column, None) (models.model_dump_exclude_unset patch) /\
    fst (main.update_ticket_request ticket_id (JDict items) now d)
      <> Raise (HTTPException 400 "No fields provided to update") /\
    fst (main.update_ticket_request ticket_id (JDict items) now d)
      <> Raise RequestValidationError /\
    (forall old, db.select_by_id d ticket_id = Some old ->
       patch_encodable patch = true -> db.int64 ticket_id = true ->
       match dict_get "status" items with
       | Some JNull =>
           exists e,
             main.update_ticket_request ticket_id (JDict items) now d
             = (Raise e, d) /\
             e = IntegrityError "NOT NULL constraint failed: tickets.status" /\
             server_error e
       | _ =>
           exists new d',
             main.update_ticket_request ticket_id (JDict items) now d
             = (Ok new, d') /\
             column_value column new = None /\
             main.get_ticket ticket_id d' = Ok new
       end).
Proof.
  intros number ticket_id items patch column now d Hcol Hnull Hv.
  pose proof (validate_ok_fields _ _ Hv) as (Est & Epr & Eca & Esu & Esr).
  assert (Hin : In (column, None) (models.model_dump_exclude_unset patch)).
  { unfold models.model_dump_exclude_unset. simpl in Hcol.
    destruct Hcol as [<- | [<- | [<- | [<- | [<- | []]]]]];
      rewrite Hnull in *; simpl in *;
      destruct patch as [st pr ca su sr]; simpl in *;
      [ injection Est as <- | injection Epr as <- | injection Eca as <-
      | injection Esu as <- | injection Esr as <- ];
      repeat (apply in_or_app; first [left; simpl; now left | right]);
      simpl; now left. }
  assert (Hne : models.model_dump_exclude_unset patch <> []).
  { intros E. rewrite E in Hin. contradiction. }
  assert (Hcases :
    (models.status patch = Some None /\ dict_get "status" items = Some JNull) \/
    (models.status patch <> Some None /\
     forall A (x y : A), match dict_get "status" items with
                         | Some JNull => x | _ => y end = y)).
  { unfold models.literal_field in Est.
    destruct (dict_get "status" items) as [[| | |s| |]|]; try discriminate.
    - left. injection Est as <-. split; reflexivity.
    - right. destruct (models.is_literal models.status_literals s);
        [|discriminate].
      injection Est as <-. split; [discriminate | reflexivity].
    - right. injection Est as <-. split; [discriminate | reflexivity]. }
  unfold main.update_ticket_request. rewrite Hv.
  split; [exact Hin|].
  assert (Hres : forall e, status_code_of e <> 404 -> status_code_of e <> 500 ->
            fst (main.update_ticket ticket_id patch now d) <> Raise e).
  { intros e H404 H500. rewrite update_ticket_answer.
    destruct (models.model_dump_exclude_unset patch); [congruence|].
    destruct (patch_encodable patch); cbn [negb];
      [|intros [= <-]; now apply H500].
    destruct (db.int64 ticket_id); cbn [negb];
      [|intros [= <-]; now apply H500].
    destruct (db.select_by_id d ticket_id) as [old|];
      [|intros [= <-]; now apply H404].
    destruct (models.status patch) as [[s|]|]; try discriminate.
    intros [= <-]. now apply H500. }
  split; [apply Hres; cbv; congruence|].
  split; [apply Hres; cbv; congruence|].
  intros old Hold He Hid. destruct Hcases as [[Hst Hit] | [Hst Hit]].
  - rewrite Hit. eexists. split; [|split; [reflexivity|cbv; split; congruence]].
    apply (update_ticket_null_status _ _ _ _ _ He Hid Hst Hold).
  - rewrite Hit. rewrite (update_ticket_existing _ _ _ _ _ Hne He Hid Hst Hold).
    eexists _, _. split; [reflexivity|]. split.
    + simpl in Hcol.
      destruct Hcol as [<- | [<- | [<- | [<- | [<- | []]]]]];
        rewrite Hnull in *; simpl in *;
        match goal with H : Ok _ = Ok _ |- _ => injection H as E end;
        try (exfalso; apply Hst; now rewrite <- E);
        unfold column_value; simpl; now rewrite <- E.
    + apply get_ticket_selected; [exact Hid|].
      unfold db.select_by_id in *. cbn [db.tickets].
      now rewrite find_rows_after_update, Z.eqb_refl, Hold.
Qed.

Lemma explicit_null_witness :
  (exists e,
     main.update_ticket_request 1 (JDict [("status", JNull (number := Z))])
       fixture.t1 fixture.one_ticket_db = (Raise e, fixture.one_ticket_db) /\
     server_error e) /\
  (exists new d',
     main.update_ticket_request 1 (JDict [("summary", JNull (number := Z))])
       fixture.t1 fixture.one_ticket_db = (Ok new, d') /\
     db.summary new = None).
Proof.
  split.
  - destruct (explicit_null_is_applied Z 1 [("status", JNull)]
                {| models.status := Some None; models.priority := None;
                   models.category := None; models.summary := None;
                   models.suggested_reply := None |}
                "status" fixture.t1 fixture.one_ticket_db
                (or_introl eq_refl) eq_refl eq_refl) as (_ & _ & _ & H).
    destruct (H _ eq_refl eq_refl eq_refl) as (e & H1 & _ & H3). now exists e.
  - destruct (explicit_null_is_applied Z 1 [("summary", JNull)]
                {| models.status := None; models.priority := None;
                   models.category := None; models.summary := Some None;
                   models.suggested_reply := None |}
                "summary" fixture.t1 fixture.one_ticket_db
                (or_intror (or_intror (or_intror (or_introl eq_refl))))
                eq_refl eq_refl) as (_ & _ & _ & H).
    destruct (H _ eq_refl eq_refl eq_refl) as (new & d' & H1 & H2 & _).
    exists new, d'. split; [exact H1 | exact H2].
Defined.

(** ** Requests to list *)

Lemma limit_offset_all (limit : Z) (rows : list db.Row) :
  Z.of_nat (List.length rows) <= limit ->
  db.limit_offset limit 0 rows = rows.
Proof.
  intros H. unfold db.limit_offset. simpl.
  destruct (Z.ltb_spec limit 0); [lia|].
  apply firstn_all2. lia.
Qed.

Lemma status_encodable_truthy (s : string) :
  encodable s = true -> status_encodable (Some s) = true.
Proof.
  intros H. unfold status_encodable. simpl. rewrite H.
  now destruct (negb (String.eqb s "")).
Qed.

(** What a list request inside the declared bounds answers. *)
Lemma list_request_in_bounds (status : option string) (limit offset : option Z)
    (d : db.Database) :
  let lim := match limit with Some l => l | None => 20 end in
  let off := match offset with Some o => o | None => 0 end in
  1 <= lim <= 100 -> 0 <= off ->
  main.list_tickets_request status limit offset d
  = if negb (status_encodable status) then Raise UnicodeEncodeError
    else if off <? 2 ^ 63
         then Ok (db.select_tickets (filter_of status) lim off d)
         else Raise OverflowError.
Proof.
  intros lim off Hl Ho. unfold main.list_tickets_request. fold lim off.
  destruct (Z.leb_spec 1 lim); [|lia].
  destruct (Z.leb_spec lim 100); [|lia].
  destruct (Z.leb_spec 0 off); [|lia]. cbn [andb].
  rewrite list_tickets_cases.
  destruct (status_encodable status); [|reflexivity]. cbn [negb].
  assert (Hlim : db.int64 lim = true) by (apply int64_bounds; lia).
  rewrite Hlim. cbn [andb].
  destruct (Z.ltb_spec off (2 ^ 63)) as [Hlt | Hge].
  - assert (Hoff : db.int64 off = true) by (apply int64_bounds; lia).
    now rewrite Hoff.
  - assert (Hoff : db.int64 off = false).
    { destruct (db.int64 off) eqn:E; [|reflexivity].
      apply int64_bounds in E. lia. }
    now rewrite Hoff.
Qed.

Lemma list_request_out_of_bounds (status : option string)
    (limit offset : option Z) (d : db.Database) :
  let lim := match limit with Some l => l | None => 20 end in
  let off := match offset with Some o => o | None => 0 end in
  ~ (1 <= lim <= 100 /\ 0 <= off) ->
  main.list_tickets_request status limit offset d = Raise RequestValidationError.
Proof.
  intros lim off H. unfold main.list_tickets_request. fold lim off.
  destruct (Z.leb_spec 1 lim); [|reflexivity].
  destruct (Z.leb_spec lim 100); [|reflexivity].
  destruct (Z.leb_spec 0 off); [|reflexivity]. lia.
Qed.

(** A list request that returns rows was inside the bounds, and the rows
    are the page the query selects. *)
Lemma list_request_ok_inv (status : option string) (limit offset : option Z)
    (d : db.Database) (rows : list db.Row) :
  let lim := match limit with Some l => l | None => 20 end in
  let off := match offset with Some o => o | None => 0 end in
  main.list_tickets_request status limit offset d = Ok rows ->
  1 <= lim <= 100 /\ 0 <= off < 2 ^ 63 /\
  status_encodable status = true /\
  rows = db.select_tickets (filter_of status) lim off d.
Proof.
  intros lim off H.
  assert (Hb : 1 <= lim <= 100 /\ 0 <= off).
  { destruct (Z.leb_spec 1 lim); destruct (Z.leb_spec lim 100);
      destruct (Z.leb_spec 0 off); try lia;
      rewrite list_request_out_of_bounds in H by (fold lim off; lia);
      discriminate. }
  destruct Hb as [Hl Ho].
  rewrite (list_request_in_bounds status limit offset d Hl Ho) in H.
  fold lim off in H.
  destruct (status_encodable status); [|discriminate]. cbn [negb] in H.
  destruct (Z.ltb_spec off (2 ^ 63)); [|discriminate].
  injection H as <-. repeat split; lia.
Qed.




(** C10. With [status] given as the empty text the handler runs the query
    without a WHERE clause: it answers as if no status had been given,
    and the rows it returns are the stored tickets in listing order cut
    to the page, which are all the tickets when the page is large enough.
    Whether a request returns rows depends on [limit] and [offset] alone,
    never on the text given as status, as long as UTF-8 can encode it. *)
Theorem empty_status_applies_no_filter :
  forall (limit offset : option Z) (d : db.Database),
    let lim := match limit with Some l => l | None => 20 end in
    let off := match offset with Some o => o | None => 0 end in
    main.list_tickets_request (Some "") limit offset d
    = main.list_tickets_request None limit offset d /\
    (forall rows,
       main.list_tickets_request (Some "") limit offset d = Ok rows ->
       rows = db.limit_offset lim off
                (db.order_by_created_at_desc (db.tickets d))) /\
    (1 <= lim <= 100 -> Z.of_nat (List.length (db.tickets d)) <= lim ->
     exists rows,
       main.list_tickets_request (Some "") limit (Some 0) d = Ok rows /\
       Permutation rows (db.tickets d)) /\
    (forall s : string,
       encodable s = true ->
       ((exists rows,
           main.list_tickets_request (Some s) limit offset d = Ok rows)
        <-> (1 <= lim <= 100 /\ 0 <= off < 2 ^ 63))).
Proof.
  intros limit offset d lim off.
  split; [reflexivity|]. split; [|split].
  - intros rows H.
    now destruct (list_request_ok_inv (Some "") limit offset d rows H)
      as (_ & _ & _ & ->).
  - intros Hl Hlen.
    rewrite (list_request_in_bounds (Some "") limit (Some 0) d Hl)
      by (cbn; lia).
    fold lim. cbn. eexists. split; [reflexivity|].
    unfold db.select_tickets. rewrite limit_offset_all.
    + apply order_by_perm.
    + now rewrite (Permutation_length (order_by_perm _)).
  - intros s Hs. split.
    + intros [rows H].
      destruct (list_request_ok_inv (Some s) limit offset d rows H)
        as (Hl & Ho & _). now split.
    + intros [Hl Ho].
      rewrite (list_request_in_bounds (Some s) limit offset d Hl)
        by (fold off; lia).
      fold lim off. rewrite (status_encodable_truthy s Hs). cbn [negb].
      destruct (Z.ltb_spec off (2 ^ 63)); [eauto | lia].
Qed.

Lemma empty_status_witness :
  exists rows,
    main.list_tickets_request (Some "") None (Some 0) fixture.one_ticket_db
    = Ok rows /\
    Permutation rows (db.tickets fixture.one_ticket_db).
Proof.
  destruct (empty_status_applies_no_filter None None fixture.one_ticket_db)
    as (_ & _ & H & _).
  apply H; [lia|]. vm_compute. discriminate.
Defined.

(** ** Triage *)

Section TriageFacts.
Context {World number : Type}.
Variable provider : ai.ChatRequest -> World -> ai.Reply * World.
Variable json_loads : string -> option (json number).

Local Abbreviation analyze_with := (ai.analyze_ticket provider json_loads).
Local Abbreviation attempt_with := (attempt provider json_loads).

Lemma attempt_count (req : ai.ChatRequest) (w : World) :
  (1 <= snd (attempt_with req w) <= 3)%nat.
Proof.
  unfold attempt.
  destruct (provider req w) as [r1 w1].
  destruct (retried r1); cbn [negb]; [|simpl; lia].
  destruct (provider req w1) as [r2 w2].
  destruct (retried r2); cbn [negb]; [|simpl; lia].
  destruct (provider req w2) as [r3 w3]. simpl. lia.
Qed.

(** One call of the client, then [json.loads], is one [attempt]. *)
Lemma complete_attempt (req : ai.ChatRequest) (n : ai.Net World) :
  ai.complete provider json_loads req n
  = (fst (fst (attempt_with req (ai.world n))),
     {| ai.world := snd (fst (attempt_with req (ai.world n)));
        ai.sent := ai.sent n ++ repeat req (snd (attempt_with req (ai.world n))) |}).
Proof.
  unfold ai.complete, ai.chat_completions_create, ai.max_retries, attempt.
  cbn [ai.send ai.world ai.sent].
  destruct (provider req (ai.world n)) as [r1 w1].
  destruct r1 as [c1 | d1 | d1]; cbn [retried negb fst snd py.bind outcome_of];
    [destruct c1; reflexivity | reflexivity |].
  destruct (provider req w1) as [r2 w2].
  destruct r2 as [c2 | d2 | d2]; cbn [retried negb fst snd py.bind outcome_of repeat];
    rewrite <- ?app_assoc; cbn [app];
    [destruct c2; reflexivity | reflexivity |].
  destruct (provider req w2) as [r3 w3].
  destruct r3 as [c3 | d3 | d3]; cbn [retried negb fst snd py.bind outcome_of repeat];
    rewrite <- ?app_assoc; cbn [app];
    [destruct c3; reflexivity | reflexivity | reflexivity].
Qed.

Lemma analyze_ticket_missing_key (api_key : option string)
    (subject body : string) (n : ai.Net World) :
  truthy api_key = false ->
  analyze_with api_key subject body n
  = (Raise (RuntimeError ai.missing_key_message), n).
Proof. intros H. unfold ai.analyze_ticket. now rewrite H. Qed.

(** With a credential: the strict call, and after its failure the
    fallback call on the world the strict one left. *)
Lemma analyze_ticket_attempts (api_key : option string)
    (subject body : string) (n : ai.Net World) :
  truthy api_key = true ->
  let strict := ai.strict_request subject body in
  let fallback := ai.fallback_request subject body in
  let first := attempt_with strict (ai.world n) in
  let second := attempt_with fallback (snd (fst first)) in
  analyze_with api_key subject body n
  = match fst (fst first) with
    | Ok v =>
        (Ok v, {| ai.world := snd (fst first);
                  ai.sent := ai.sent n ++ repeat strict (snd first) |})
    | Raise _ =>
        (fst (fst second),
         {| ai.world := snd (fst second);
            ai.sent := ai.sent n ++ repeat strict (snd first)
                       ++ repeat fallback (snd second) |})
    end.
Proof.
  intros H strict fallback first second. unfold ai.analyze_ticket.
  rewrite H. cbn [negb]. rewrite complete_attempt. fold strict first.
  destruct (fst (fst first)); [reflexivity|].
  rewrite complete_attempt. cbn [ai.world ai.sent]. fold fallback second.
  now rewrite <- app_assoc.
Qed.

(** C4, as the code has it. With a credential, [analyze_ticket] first
    calls the client with the strict request: model gpt-4.1-mini, the
    system and the user message, temperature 0.2 and the json_schema
    format named ticket_analysis, strict, over the four required keys.
    The client sends a request once and again, up to three times in all,
    as long as the provider is unavailable. When that call returns a
    content that [json.loads] reads, its value is the result and nothing
    else is sent. When the call or the parse raises, the client is called
    exactly once more, with the same messages followed by the reminder of
    the four keys and the json_object format; this request too goes out
    one to three times, and the outcome of this second call, value or
    error, is the outcome of [analyze_ticket]. *)
Theorem analyze_ticket_strict_then_one_fallback :
  forall (api_key : option string) (subject body : string) (n : ai.Net World),
    truthy api_key = true ->
    let system :=
      {| ai.role := "system";
         ai.content := "You are a helpful customer support assistant. Return structured results." |} in
    let user :=
      {| ai.role := "user";
         ai.content := "Ticket subject: " ++ subject ++ String "010"%char ""
                       ++ "Ticket body: " ++ body |} in
    let reminder :=
      {| ai.role := "user";
         ai.content := "Return ONLY a valid JSON object with keys: priority, category, summary, suggested_reply." |} in
    let strict :=
      {| ai.model := "gpt-4.1-mini";
         ai.messages := [system; user];
         ai.temperature := QArith_base.Qmake 2 10;
         ai.response_format :=
           ai.json_schema "ticket_analysis"
             {| ai.additionalProperties := false;
                ai.properties :=
                  [("priority",
                    {| ai.type_ := "string";
                       ai.enum := Some ["low"; "medium"; "high"] |});
                   ("category",
                    {| ai.type_ := "string";
                       ai.enum := Some ["billing"; "technical"; "account"; "other"] |});
                   ("summary", {| ai.type_ := "string"; ai.enum := None |});
                   ("suggested_reply", {| ai.type_ := "string"; ai.enum := None |})];
                ai.required := ["priority"; "category"; "summary"; "suggested_reply"] |}
             true |} in
    let fallback :=
      {| ai.model := "gpt-4.1-mini";
         ai.messages := [system; user; reminder];
         ai.temperature := QArith_base.Qmake 2 10;
         ai.response_format := ai.json_object |} in
    let first := attempt provider json_loads strict (ai.world n) in
    let second := attempt provider json_loads fallback (snd (fst first)) in
    (1 <= snd first <= 3)%nat /\ (1 <= snd second <= 3)%nat /\
    (forall v, fst (fst first) = Ok v ->
       ai.analyze_ticket provider json_loads api_key subject body n
       = (Ok v, {| ai.world := snd (fst first);
                   ai.sent := ai.sent n ++ repeat strict (snd first) |})) /\
    (forall e, fst (fst first) = Raise e ->
       ai.analyze_ticket provider json_loads api_key subject body n
       = (fst (fst second),
          {| ai.world := snd (fst second);
             ai.sent := ai.sent n ++ repeat strict (snd first)
                        ++ repeat fallback (snd second) |})).
Proof.
  intros api_key subject body n Hk system user reminder strict fallback.
  assert (Hs : strict = ai.strict_request subject body) by reflexivity.
  assert (Hf : fallback = ai.fallback_request subject body) by reflexivity.
  clearbody strict fallback. subst strict fallback.
  intros first second.
  split; [apply attempt_count|]. split; [apply attempt_count|].
  pose proof (analyze_ticket_attempts api_key subject body n Hk) as H.
  cbv zeta in H. fold first second in H.
  split; intros x Hx; rewrite H, Hx; reflexivity.
Qed.

End TriageFacts.

Lemma analyze_ticket_fallback_witness :
  ai.analyze_ticket fixture.provider fixture.json_loads (Some "sk-test")
    "Printer" "It is broken"
    (fixture.net [ai.Unavailable "timeout"; ai.Rejected "schema refused";
                  ai.Completion (Some fixture.good_text)])
  = (Ok fixture.good,
     {| ai.world := [];
        ai.sent := [ai.strict_request "Printer" "It is broken";
                    ai.strict_request "Printer" "It is broken";
                    ai.fallback_request "Printer" "It is broken"] |}).
Proof.
  destruct (analyze_ticket_strict_then_one_fallback fixture.provider
              fixture.json_loads (Some "sk-test") "Printer" "It is broken"
              (fixture.net [ai.Unavailable "timeout"; ai.Rejected "schema refused";
                            ai.Completion (Some fixture.good_text)]) eq_refl)
    as (_ & _ & _ & H).
  exact (H (CompletionError "schema refused") eq_refl).
Defined.

(** C4 as stated fails for "exactly one fallback request" and "no further
    retry": while the provider is unreachable the strict request goes out
    three times and the fallback request three times. *)
Lemma analyze_ticket_resends_when_unavailable :
  ai.analyze_ticket fixture.provider fixture.json_loads (Some "sk-test")
    "Printer" "It is broken" (fixture.net [])
  = (Raise (CompletionError "connection refused"),
     {| ai.world := [];
        ai.sent := [ai.strict_request "Printer" "It is broken";
                    ai.strict_request "Printer" "It is broken";
                    ai.strict_request "Printer" "It is broken";
                    ai.fallback_request "Printer" "It is broken";
                    ai.fallback_request "Printer" "It is broken";
                    ai.fallback_request "Printer" "It is broken"] |}).
Proof. reflexivity. Qed.

(** ** Validation of the creation body *)

Section CreateValidationFacts.
Context {number : Type}.
Variable validate_email : string -> option string.

Lemma required_str_ok (o : option (json number)) (s : string) :
  models.required_str o = Ok s <-> o = Some (JString s).
Proof.
  destruct o as [[| b | n | s0 | l | items]|]; simpl; split; intros H;
    try discriminate; congruence.
Qed.

Lemma nonempty_str_ok (o : option (json number)) (s : string) :
  models.nonempty_str o = Ok s <->
  o = Some (JString s) /\ (1 <=? String.length s)%nat = true.
Proof.
  unfold models.nonempty_str. split.
  - destruct o as [[| b | n | s0 | l | items]|];
      cbn [models.required_str py.bind]; intros H; try discriminate H.
    destruct (1 <=? String.length s0)%nat eqn:E; [|discriminate H].
    injection H as <-. now split.
  - intros [-> E]. cbn [models.required_str py.bind]. now rewrite E.
Qed.

Lemma validate_TicketCreate_ok (body : json number) (t : models.TicketCreate) :
  models.validate_TicketCreate validate_email body = Ok t ->
  exists items,
    body = JDict items /\
    models.required_str (dict_get "source" items) = Ok (models.source t) /\
    models.optional_str (dict_get "customer_name" items)
      = Ok (models.customer_name t) /\
    models.optional_email validate_email (dict_get "customer_email" items)
      = Ok (models.customer_email t) /\
    models.nonempty_str (dict_get "subject" items) = Ok (models.subject t) /\
    models.nonempty_str (dict_get "body" items) = Ok (models.body t).
Proof.
  destruct body as [| b | n | s0 | l | items]; try discriminate.
  unfold models.validate_TicketCreate.
  destruct (models.required_str (dict_get "source" items)) eqn:E1;
    cbn [py.bind]; [|discriminate].
  destruct (models.optional_str (dict_get "customer_name" items)) eqn:E2;
    cbn [py.bind]; [|discriminate].
  destruct (models.optional_email validate_email (dict_get "customer_email" items))
    eqn:E3; cbn [py.bind]; [|discriminate].
  destruct (models.nonempty_str (dict_get "subject" items)) eqn:E4;
    cbn [py.bind]; [|discriminate].
  destruct (models.nonempty_str (dict_get "body" items)) eqn:E5;
    cbn [py.bind]; [|discriminate].
  intros [= <-]. exists items. cbn. repeat split; assumption.
Qed.






Lemma validated_ticket_valid (body : json number) (ticket : models.TicketCreate) :
  models.validate_TicketCreate validate_email body = Ok ticket ->
  models.TicketCreate_valid ticket = true.
Proof.
  intros H. apply validate_TicketCreate_ok in H.
  destruct H as (items & -> & _ & _ & _ & Hsu & Hbo).
  apply nonempty_str_ok in Hsu, Hbo.
  destruct Hsu as [_ Lsu], Hbo as [_ Lbo].
  unfold models.TicketCreate_valid. now rewrite Lsu, Lbo.
Qed.

(** Where the fields of a validated ticket come from. *)
Lemma validated_ticket_texts (body : json number) (ticket : models.TicketCreate) :
  models.validate_TicketCreate validate_email body = Ok ticket ->
  exists items,
    body = JDict items /\
    dict_get "source" items = Some (JString (models.source ticket)) /\
    dict_get "subject" items = Some (JString (models.subject ticket)) /\
    dict_get "body" items = Some (JString (models.body ticket)) /\
    models.customer_name ticket = text_of (dict_get "customer_name" items) /\
    ((models.customer_email ticket = None /\
      text_of (dict_get "customer_email" items) = None) \/
     exists s, dict_get "customer_email" items = Some (JString s) /\
               validate_email s = models.customer_email ticket).
Proof.
  intros H. apply validate_TicketCreate_ok in H.
  destruct H as (items & -> & Hso & Hcn & Hce & Hsu & Hbo).
  apply required_str_ok in Hso. apply nonempty_str_ok in Hsu, Hbo.
  destruct Hsu as [Hsu Lsu], Hbo as [Hbo Lbo].
  exists items. repeat split; try assumption.
  - destruct (dict_get "customer_name" items) as [[| b | n | s0 | l | i0]|];
      simpl in *; congruence.
  - destruct (dict_get "customer_email" items) as [[| b | n | s0 | l | i0]|];
      simpl in *; try discriminate; try (left; split; congruence).
    destruct (validate_email s0) eqn:E; [|discriminate].
    right. exists s0. split; [reflexivity | congruence].
Qed.

End CreateValidationFacts.

(** ** Creation and retrieval *)

Section CreationClaims.
Context {World number : Type}.
Variable provider : ai.ChatRequest -> World -> ai.Reply * World.
Variable json_loads : string -> option (json number).
Variable number_text : number -> option string.

Local Abbreviation triage_of := (ai.analyze_ticket provider json_loads).
Local Abbreviation created_by := (main.create_ticket provider json_loads number_text).

(** What a successful creation returns, whatever triage produced: the
    status is "new", both timestamps are the [datetime('now')] of the
    INSERT, and the id is larger than every id in the table and than the
    AUTOINCREMENT counter. *)
Lemma created_record_fresh api_key now ticket (n n' : ai.Net World) d d' row :
  created_by api_key now ticket n d = (Ok row, n', d') ->
  db.status row = "new" /\
  db.created_at row = now /\ db.updated_at row = now /\
  db.sqlite_sequence d < db.id row /\
  (forall r, In r (db.tickets d) -> db.id r < db.id row) /\
  d' = with_row d row.
Proof.
  intros H. apply create_ticket_ok_inv in H.
  destruct H as (p & c & s & r & -> & -> & _).
  repeat split; try reflexivity.
  - simpl. unfold db.next_id. lia.
  - intros x Hx. simpl. now apply next_id_fresh.
Qed.

(** What creation answers once triage has raised. *)
Lemma create_ticket_without_triage api_key now ticket (n n' : ai.Net World) d e :
  triage_of api_key (models.subject ticket) (models.body ticket) n = (Raise e, n') ->
  created_by api_key now ticket n d
  = if ticket_encodable ticket then
      if db.next_id d <? 2 ^ 63
      then (Ok (created_row now ticket None None None None d), n',
            with_row d (created_row now ticket None None None None d))
      else (Raise (OperationalError "database or disk is full"), n', d)
    else (Raise UnicodeEncodeError, n', d).
Proof.
  intros Ha.
  pose proof (no_ai_data_parameters number_text ticket) as Hp.
  destruct (ticket_encodable ticket).
  - destruct (Z.ltb_spec (db.next_id d) (2 ^ 63)) as [Hid | Hid].
    + exact (create_ticket_stores provider json_loads number_text _ _ _ _ _ _ _
               _ _ _ _ _ Ha Hp Hid).
    + exact (create_ticket_full provider json_loads number_text _ _ _ _ _ _ _
               _ Ha Hp Hid).
  - exact (create_ticket_raises provider json_loads number_text _ _ _ _ _ _ _
             _ Ha Hp).
Qed.

(** The created row can be fetched, and no other id is affected. *)
Lemma get_created (d : db.Database) (row : db.Row) :
  db.id row = db.next_id d -> db.next_id d < 2 ^ 63 ->
  main.get_ticket (db.id row) (with_row d row) = Ok row.
Proof.
  intros Hid Hlt. apply get_ticket_selected; [|now apply select_created].
  apply int64_bounds. pose proof (next_id_positive d). lia.
Qed.



(** C2, as the code has it. Without a credential [analyze_ticket] raises
    at once the RuntimeError that names the missing OPENAI_API_KEY, before
    any request is sent. [create_ticket] treats it as it treats every
    other triage failure: the ticket is stored with the four AI fields
    absent, and the caller gets the same answer and the same database as
    after any run in which triage raised. *)
Theorem missing_credential_handled_as_triage_failure :
  forall (api_key : option string) (now : string)
         (ticket : models.TicketCreate) (n : ai.Net World) (d : db.Database),
    truthy api_key = false ->
    ai.analyze_ticket provider json_loads api_key
      (models.subject ticket) (models.body ticket) n
    = (Raise (RuntimeError
                "OPENAI_API_KEY is missing. Ensure .env exists in project root and contains OPENAI_API_KEY=..."),
       n) /\
    (ticket_encodable ticket = true -> db.next_id d < 2 ^ 63 ->
     main.create_ticket provider json_loads number_text api_key now ticket n d
     = (Ok (created_row now ticket None None None None d), n,
        with_row d (created_row now ticket None None None None d))) /\
    (forall (other_key : option string) (m m' : ai.Net World) (e : exn),
       ai.analyze_ticket provider json_loads other_key
         (models.subject ticket) (models.body ticket) m = (Raise e, m') ->
       fst (fst (main.create_ticket provider json_loads number_text other_key
                   now ticket m d))
       = fst (fst (main.create_ticket provider json_loads number_text api_key
                     now ticket n d)) /\
       snd (main.create_ticket provider json_loads number_text other_key
              now ticket m d)
       = snd (main.create_ticket provider json_loads number_text api_key
                now ticket n d) /\
       snd (fst (main.create_ticket provider json_loads number_text other_key
                   now ticket m d)) = m').
Proof.
  intros api_key now ticket n d Hkey.
  pose proof (analyze_ticket_missing_key provider json_loads api_key
                (models.subject ticket) (models.body ticket) n Hkey) as Ha.
  split; [exact Ha|].
  pose proof (create_ticket_without_triage api_key now ticket n n d _ Ha) as Hc.
  split.
  - intros Henc Hid. rewrite Hc, Henc.
    destruct (Z.ltb_spec (db.next_id d) (2 ^ 63)); [reflexivity | lia].
  - intros other_key m m' e Hm.
    rewrite Hc, (create_ticket_without_triage other_key now ticket m m' d e Hm).
    destruct (ticket_encodable ticket); [|now repeat split].
    destruct (db.next_id d <? 2 ^ 63); now repeat split.
Qed.

(** C8, as the code has it. After a successful creation request,
    fetching the returned id from the resulting database gives exactly
    the record that creation returned. [source], [subject] and [body] of
    that record are the texts of the request body, unchanged, and
    [customer_name] is the text sent or absent. [customer_email] is
    absent when none was sent, and otherwise the address the e-mail
    validator made of the text sent. *)
Theorem get_after_create_roundtrip :
  forall (validate_email : string -> option string)
         (api_key : option string) (now : string) (body : json number)
         (n n' : ai.Net World) (d d' : db.Database) (row : db.Row),
    main.create_ticket_request provider json_loads number_text validate_email
      api_key now body n d = (Ok row, n', d') ->
    main.get_ticket (db.id row) d' = Ok row /\
    exists items,
      body = JDict items /\
      dict_get "source" items = Some (JString (db.source row)) /\
      dict_get "subject" items = Some (JString (db.subject row)) /\
      dict_get "body" items = Some (JString (db.body row)) /\
      db.customer_name row = text_of (dict_get "customer_name" items) /\
      ((db.customer_email row = None /\
        text_of (dict_get "customer_email" items) = None) \/
       exists s, dict_get "customer_email" items = Some (JString s) /\
                 validate_email s = db.customer_email row).
Proof.
  intros validate_email api_key now body n n' d d' row H.
  unfold main.create_ticket_request in H.
  destruct (models.validate_TicketCreate validate_email body) as [ticket|e] eqn:Hv;
    [|discriminate].
  apply create_ticket_ok_inv in H.
  destruct H as (p & c & s & r & Hrow & -> & Hid & _).
  split.
  - apply get_created; [now rewrite Hrow | exact Hid].
  - rewrite Hrow. cbn [created_row db.source db.subject db.body
      db.customer_name db.customer_email].
    exact (validated_ticket_texts validate_email body ticket Hv).
Qed.

End CreationClaims.



Lemma missing_credential_witness :
  ai.analyze_ticket fixture.provider fixture.json_loads (Some "")
    "Printer" "It is broken" (fixture.net [ai.Completion (Some fixture.good_text)])
  = (Raise (RuntimeError
              "OPENAI_API_KEY is missing. Ensure .env exists in project root and contains OPENAI_API_KEY=..."),
     fixture.net [ai.Completion (Some fixture.good_text)]).
Proof.
  destruct (missing_credential_handled_as_triage_failure fixture.provider
              fixture.json_loads fixture.number_text (Some "") fixture.t0
              fixture.printer_ticket
              (fixture.net [ai.Completion (Some fixture.good_text)])
              fixture.empty_db eq_refl) as (H & _).
  exact H.
Defined.

(** C2 as stated fails: with the credential missing, the caller of
    [create_ticket] receives the very record, and the database the very
    content, that they receive when the credential is present and the
    provider is unreachable. *)
Lemma missing_credential_not_distinguished :
  let create key :=
    main.create_ticket fixture.provider fixture.json_loads fixture.number_text
      key fixture.t0 fixture.printer_ticket (fixture.net []) fixture.empty_db in
  let triage key :=
    fst (ai.analyze_ticket fixture.provider fixture.json_loads key
           "Printer" "It is broken" (fixture.net [])) in
  triage None = Raise (RuntimeError ai.missing_key_message) /\
  triage (Some "sk-test") = Raise (CompletionError "connection refused") /\
  fst (fst (create None)) = fst (fst (create (Some "sk-test"))) /\
  snd (create None) = snd (create (Some "sk-test")) /\
  exists row, fst (fst (create None)) = Ok row.
Proof.
  repeat split. eexists. reflexivity.
Qed.

(** C3 at an input on which the code fails. The provider is unavailable
    for the strict request, all three times it is sent, and answers the
    JSON-mode request with an object whose "summary" is itself an object;
    [create_ticket] then raises sqlite3's ProgrammingError while binding
    the parameters, which is answered with status 500, and nothing is
    stored. *)
Theorem create_ticket_raises_on_nested_triage_value :
  models.TicketCreate_valid fixture.printer_ticket = true /\
  fixture.json_loads fixture.nested_summary_text = Some fixture.nested_summary /\
  main.create_ticket fixture.provider fixture.json_loads fixture.number_text
    (Some "sk-test") fixture.t0 fixture.printer_ticket
    (fixture.net [ai.Unavailable "timeout"; ai.Unavailable "timeout";
                  ai.Unavailable "timeout";
                  ai.Completion (Some fixture.nested_summary_text)])
    fixture.empty_db
  = (Raise ProgrammingError,
     {| ai.world := [];
        ai.sent := [ai.strict_request "Printer" "It is broken";
                    ai.strict_request "Printer" "It is broken";
                    ai.strict_request "Printer" "It is broken";
                    ai.fallback_request "Printer" "It is broken"] |},
     fixture.empty_db) /\
  status_code_of ProgrammingError = 500.
Proof. repeat split. Qed.

Lemma get_after_create_witness :
  exists row d',
    main.create_ticket_request fixture.provider fixture.json_loads
      fixture.number_text sample.validate_email
      (Some "sk-test") fixture.t1 sample.printer_body
      (fixture.net [ai.Completion (Some fixture.good_text)]) fixture.one_ticket_db
    = (Ok row, {| ai.world := [];
                  ai.sent := [ai.strict_request "Printer" "It is broken"] |}, d') /\
    main.get_ticket 2 d' = Ok row /\
    db.subject row = "Printer" /\ db.priority row = Some "high".
Proof.
  eexists _, _. split; [reflexivity|].
  destruct (get_after_create_roundtrip fixture.provider fixture.json_loads
              fixture.number_text sample.validate_email (Some "sk-test")
              fixture.t1 sample.printer_body
              (fixture.net [ai.Completion (Some fixture.good_text)])
              _ fixture.one_ticket_db _ _ eq_refl)
    as (H1 & _).
  split; [exact H1|]. split; reflexivity.
Defined.

(** C8 as stated fails for [customer_email]: the address sent as
    Ada@EXAMPLE.COM is stored, and returned by create and by the
    following get, as Ada@example.com. *)
Lemma create_returns_normalised_email :
  exists row n' d',
    main.create_ticket_request fixture.provider fixture.json_loads
      fixture.number_text fixture.validate_email None fixture.t0
      (JDict [("source", JString "web");
              ("customer_email", JString "Ada@EXAMPLE.COM");
              ("subject", JString "Printer"); ("body", JString "It is broken")])
      (fixture.net []) fixture.empty_db
    = (Ok row, n', d') /\
    main.get_ticket (db.id row) d' = Ok row /\
    db.customer_email row = Some "Ada@example.com" /\
    db.customer_email row <> Some "Ada@EXAMPLE.COM".
Proof.
  eexists _, _, _. split; [reflexivity|]. split; [reflexivity|].
  split; [reflexivity | discriminate].
Qed.

(** * Further properties of the handlers *)

(** ** Retrieval *)

(** X1. [get_ticket] raises sqlite3's OverflowError exactly when the
    requested id lies outside the signed 64 bit range. Inside the range
    it answers 404 exactly when no stored ticket has the id. It raises
    nothing else, and a record it returns is a stored ticket with that
    id. *)
Theorem get_ticket_found_or_404 :
  forall (ticket_id : Z) (d : db.Database),
    (main.get_ticket ticket_id d = Raise OverflowError
     <-> ~ (- 2 ^ 63 <= ticket_id < 2 ^ 63)) /\
    (main.get_ticket ticket_id d = Raise (HTTPException 404 "Ticket not found")
     <-> (- 2 ^ 63 <= ticket_id < 2 ^ 63 /\
          forall r, In r (db.tickets d) -> db.id r <> ticket_id)) /\
    (forall e, main.get_ticket ticket_id d = Raise e ->
               e = HTTPException 404 "Ticket not found" \/ e = OverflowError) /\
    (forall row, main.get_ticket ticket_id d = Ok row ->
                 In row (db.tickets d) /\ db.id row = ticket_id).
Proof.
  intros ticket_id d. rewrite get_ticket_cases.
  pose proof (int64_bounds ticket_id) as Hb.
  destruct (db.int64 ticket_id).
  - assert (Hin : - 2 ^ 63 <= ticket_id < 2 ^ 63) by now apply Hb.
    unfold db.select_by_id.
    destruct (find (fun r => db.id r =? ticket_id) (db.tickets d)) as [row|] eqn:F.
    + apply find_some in F. destruct F as [Hr Hid]. apply Z.eqb_eq in Hid.
      split; [split; [discriminate | intros H; contradiction]|].
      split; [split; [discriminate|]|].
      * intros [_ H]. exfalso. exact (H row Hr Hid).
      * split; [discriminate|]. intros r [= <-]. now split.
    + split; [split; [discriminate | intros H; contradiction]|].
      split; [split; [|reflexivity]|].
      * intros _. split; [exact Hin|]. intros r Hr Hid.
        pose proof (find_none _ _ F r Hr) as N. simpl in N. lia.
      * split; [|discriminate]. intros e [= <-]. now left.
  - assert (Hout : ~ (- 2 ^ 63 <= ticket_id < 2 ^ 63)).
    { intros H. apply Hb in H. discriminate. }
    split; [split; [intros _; exact Hout | reflexivity]|].
    split; [split; [discriminate | intros [H _]; contradiction]|].
    split; [|discriminate]. intros e [= <-]. now right.
Qed.

(** ** Creation *)

Section CreateMore.
Context {World number : Type}.
Variable provider : ai.ChatRequest -> World -> ai.Reply * World.
Variable json_loads : string -> option (json number).
Variable number_text : number -> option string.








(** X4. A successful creation adds one row at the end of the table and
    touches nothing else: the new id was not in use, and every other id
    selects what it selected before. *)
Theorem create_ticket_keeps_existing_tickets :
  forall (api_key : option string) (now : string)
         (ticket : models.TicketCreate) (n n' : ai.Net World)
         (d d' : db.Database) (row : db.Row),
    main.create_ticket provider json_loads number_text api_key now ticket n d
    = (Ok row, n', d') ->
    db.tickets d' = (db.tickets d ++ [row])%list /\
    db.select_by_id d (db.id row) = None /\
    (forall i, i <> db.id row -> db.select_by_id d' i = db.select_by_id d i).
Proof.
  intros api_key now ticket n n' d d' row H.
  apply create_ticket_ok_inv in H.
  destruct H as (p & c & s & r & Hrow & -> & _).
  assert (Hid : db.id row = db.next_id d) by now rewrite Hrow.
  split; [reflexivity|]. split.
  - unfold db.select_by_id.
    destruct (find (fun r0 => db.id r0 =? db.id row) (db.tickets d)) as [x|] eqn:F;
      [|reflexivity].
    apply find_some in F. destruct F as [Hin Hx].
    apply next_id_fresh in Hin. lia.
  - intros i Hi. unfold db.select_by_id, with_row. simpl.
    apply find_app_miss. now apply Z.eqb_neq.
Qed.

Lemma ltb_not_leb (a b : string) :
  String.ltb a b = true -> String.leb b a = false.
Proof.
  unfold String.ltb, String.leb. intros H.
  rewrite (String.compare_antisym b a).
  destruct (String.compare a b); simpl; congruence.
Qed.

Lemma order_by_newest_last (rows : list db.Row) (x : db.Row) :
  (forall r, In r rows -> String.ltb (db.created_at r) (db.created_at x) = true) ->
  db.order_by_created_at_desc (rows ++ [x])
  = x :: db.order_by_created_at_desc rows.
Proof.
  induction rows as [|y rows IH]; intros H; [reflexivity|].
  simpl. rewrite IH by (intros r Hr; apply H; now right).
  simpl. now rewrite (ltb_not_leb _ _ (H y (or_introl eq_refl))).
Qed.

(** X5. When a ticket is created at a clock reading later than the
    [created_at] of every stored ticket, the unfiltered listing from
    offset 0, for a limit from 1 to below 2^63, starts with the new
    ticket and goes on as the listing did before, one row shorter. *)
Theorem new_ticket_heads_the_listing :
  forall (api_key : option string) (now : string)
         (ticket : models.TicketCreate) (n n' : ai.Net World)
         (d d' : db.Database) (row : db.Row) (limit : Z),
    main.create_ticket provider json_loads number_text api_key now ticket n d
    = (Ok row, n', d') ->
    (forall r, In r (db.tickets d) -> String.ltb (db.created_at r) now = true) ->
    1 <= limit < 2 ^ 63 ->
    exists rows,
      main.list_tickets None (limit - 1) 0 d = Ok rows /\
      main.list_tickets None limit 0 d' = Ok (row :: rows).
Proof.
  intros api_key now ticket n n' d d' row limit H Hnew Hlimit.
  apply create_ticket_ok_inv in H.
  destruct H as (p & c & s & r & Hrow & -> & _).
  rewrite !list_tickets_cases. cbn [status_encodable truthy negb filter_of].
  assert (H0 : db.int64 0 = true) by reflexivity.
  assert (H1 : db.int64 limit = true) by (apply int64_bounds; lia).
  assert (H2 : db.int64 (limit - 1) = true) by (apply int64_bounds; lia).
  rewrite H0, H1, H2. cbn [andb negb].
  eexists. split; [reflexivity|]. f_equal.
  unfold db.select_tickets, db.limit_offset. cbn [with_row db.tickets].
  destruct (Z.ltb_spec limit 0); [lia|].
  destruct (Z.ltb_spec (limit - 1) 0); [lia|].
  rewrite order_by_newest_last by (rewrite Hrow; exact Hnew).
  replace (Z.to_nat limit) with (S (Z.to_nat (limit - 1))) by lia.
  reflexivity.
Qed.

End CreateMore.



Lemma create_ticket_keeps_existing_witness :
  exists row d',
    main.create_ticket fixture.provider fixture.json_loads fixture.number_text
      None fixture.t1 fixture.printer_ticket (fixture.net [])
      fixture.one_ticket_db = (Ok row, fixture.net [], d') /\
    db.select_by_id d' 1 = db.select_by_id fixture.one_ticket_db 1.
Proof.
  eexists _, _. split; [reflexivity|].
  destruct (create_ticket_keeps_existing_tickets fixture.provider
              fixture.json_loads fixture.number_text None fixture.t1
              fixture.printer_ticket (fixture.net []) _ fixture.one_ticket_db
              _ _ eq_refl) as (_ & _ & H).
  apply H. discriminate.
Defined.

Lemma new_ticket_heads_the_listing_witness :
  exists row d',
    main.create_ticket fixture.provider fixture.json_loads fixture.number_text
      None fixture.t1 fixture.printer_ticket (fixture.net [])
      fixture.one_ticket_db = (Ok row, fixture.net [], d') /\
    main.list_tickets None 1 0 d' = Ok [row].
Proof.
  eexists _, _. split; [reflexivity|].
  destruct (new_ticket_heads_the_listing fixture.provider fixture.json_loads
              fixture.number_text None fixture.t1 fixture.printer_ticket
              (fixture.net []) _ fixture.one_ticket_db _ _ 1 eq_refl)
    as (rows & H0 & H1).
  - intros r [<- | []]. reflexivity.
  - lia.
  - injection H0 as <-. exact H1.
Defined.

(** ** Partial update, in general *)



Lemma select_absent (ticket_id : Z) (d : db.Database) :
  (forall r, In r (db.tickets d) -> db.id r <> ticket_id) ->
  db.select_by_id d ticket_id = None.
Proof.
  intros Hfree. unfold db.select_by_id.
  destruct (find (fun r => db.id r =? ticket_id) (db.tickets d)) as [x|] eqn:F;
    [|reflexivity].
  apply find_some in F. destruct F as [Hin Hx]. apply Z.eqb_eq in Hx.
  now destruct (Hfree x Hin).
Qed.

(** X7. An update that passes validation, sets at least one field and
    holds only texts UTF-8 can encode, sent to an id inside the signed
    64 bit range that no ticket has, is answered 404 and leaves the
    database as it was; that holds also when the patch nulls [status],
    since no row is there to violate the constraint. *)
Theorem update_of_unknown_id_is_404 :
  forall (number : Type) (ticket_id : Z) (body : json number)
         (patch : models.TicketUpdate) (now : string) (d : db.Database),
    models.validate_TicketUpdate body = Ok patch ->
    models.model_dump_exclude_unset patch <> [] ->
    patch_encodable patch = true ->
    db.int64 ticket_id = true ->
    (forall r, In r (db.tickets d) -> db.id r <> ticket_id) ->
    main.update_ticket_request ticket_id body now d
    = (Raise (HTTPException 404 "Ticket not found"), d) /\
    main.get_ticket ticket_id d = Raise (HTTPException 404 "Ticket not found").
Proof.
  intros number ticket_id body patch now d Hv Hne Henc Hi Hfree.
  pose proof (select_absent ticket_id d Hfree) as Hnone.
  split.
  - unfold main.update_ticket_request. rewrite Hv.
    now apply update_ticket_absent.
  - now rewrite get_ticket_cases, Hi, Hnone.
Qed.

Lemma update_of_unknown_id_witness :
  main.update_ticket_request 7 (JDict [("status", JNull (number := Z))])
    fixture.t1 sample.two_ticket_db
  = (Raise (HTTPException 404 "Ticket not found"), sample.two_ticket_db).
Proof.
  apply (update_of_unknown_id_is_404 Z 7 (JDict [("status", JNull)])
           {| models.status := Some None; models.priority := None;
              models.category := None; models.summary := None;
              models.suggested_reply := None |}
           fixture.t1 sample.two_ticket_db eq_refl).
  - discriminate.
  - reflexivity.
  - reflexivity.
  - intros r [<- | [<- | []]]; discriminate.
Defined.

(** X8. Whenever an update returns a record, fetching the same id from
    the resulting database returns that very record; it carries the
    requested id, its [updated_at] is the clock reading of the update,
    and the ticket existed before with the same immutable columns. *)
Theorem get_after_update_roundtrip :
  forall (number : Type) (ticket_id : Z) (body : json number) (now : string)
         (d d' : db.Database) (new : db.Row),
    main.update_ticket_request ticket_id body now d = (Ok new, d') ->
    main.get_ticket ticket_id d' = Ok new /\
    db.id new = ticket_id /\
    db.updated_at new = now /\
    exists old, main.get_ticket ticket_id d = Ok old /\ same_ticket old new.
Proof.
  intros number ticket_id body now d d' new H.
  unfold main.update_ticket_request in H.
  destruct (models.validate_TicketUpdate body) as [patch|e]; [|discriminate].
  apply update_ticket_ok_inv in H.
  destruct H as (old & Hold & _ & _ & Hi & _ & -> & ->).
  split; [|split; [|split]].
  - apply get_ticket_selected; [exact Hi|].
    unfold db.select_by_id in *. cbn [db.tickets].
    now rewrite find_rows_after_update, Z.eqb_refl, Hold.
  - simpl. unfold db.select_by_id in Hold. apply find_some in Hold.
    destruct Hold as [_ Hid]. now apply Z.eqb_eq in Hid.
  - reflexivity.
  - exists old. split; [|repeat split].
    now apply get_ticket_selected.
Qed.

Lemma get_after_update_witness :
  exists new d',
    main.update_ticket_request 2 (JDict [("category", JString (number := Z) "billing")])
      fixture.t1 sample.two_ticket_db = (Ok new, d') /\
    main.get_ticket 2 d' = Ok new.
Proof.
  eexists _, _. split; [reflexivity|].
  apply (get_after_update_roundtrip Z 2
           (JDict [("category", JString "billing")]) fixture.t1
           sample.two_ticket_db _ _ eq_refl).
Defined.

Lemma patched_twice (p q : models.TicketUpdate) (now1 now2 : string) (r : db.Row) :
  models.status q <> Some None ->
  db.tickets_updated_at now2 (patched q (db.tickets_updated_at now1 (patched p r)))
  = db.tickets_updated_at now2 (patched (merge_patches p q) r).
Proof.
  destruct p as [a1 a2 a3 a4 a5], q as [b1 b2 b3 b4 b5], r. simpl. intros Hq.
  unfold db.tickets_updated_at, patched. simpl. f_equal.
  - destruct b1 as [[s|]|]; [reflexivity | congruence | reflexivity].
  - now destruct b2.
  - now destruct b3.
  - now destruct b4.
  - now destruct b5.
Qed.

Lemma merge_dump_nonempty (p q : models.TicketUpdate) :
  models.model_dump_exclude_unset q <> [] ->
  models.model_dump_exclude_unset (merge_patches p q) <> [].
Proof.
  intros Hq E. apply dump_nonempty in E. apply Hq, dump_nonempty.
  destruct p as [a1 a2 a3 a4 a5], q as [b1 b2 b3 b4 b5].
  unfold merge_patches in E. simpl in E.
  destruct b1, b2, b3, b4, b5; simpl in E; try discriminate E. reflexivity.
Qed.

Lemma merge_nothing (q : models.TicketUpdate) :
  merge_patches
    {| models.status := None; models.priority := None;
       models.category := None; models.summary := None;
       models.suggested_reply := None |} q = q.
Proof. now destruct q as [[?|] [?|] [?|] [?|] [?|]]. Qed.

Lemma merge_encodable (p q : models.TicketUpdate) :
  patch_encodable p = true -> patch_encodable q = true ->
  patch_encodable (merge_patches p q) = true.
Proof.
  destruct p as [a1 a2 a3 a4 a5], q as [b1 b2 b3 b4 b5].
  unfold patch_encodable, merge_patches, models.model_dump_exclude_unset.
  cbn [models.status models.priority models.category models.summary
       models.suggested_reply later_field].
  destruct a1 as [a1|], a2 as [a2|], a3 as [a3|], a4 as [a4|], a5 as [a5|];
    destruct b1 as [b1|], b2 as [b2|], b3 as [b3|], b4 as [b4|], b5 as [b5|];
    cbn [models.dump_field app forallb snd]; intros H1 H2;
    repeat match goal with
           | H : (_ && _)%bool = true |- _ =>
               apply andb_true_iff in H; destruct H
           end;
    repeat (apply andb_true_iff; split); auto.
Qed.

(** X9. Take an existing ticket, an id inside the signed 64 bit range
    and two patches that hold only texts UTF-8 can encode and do not
    null [status], the second setting at least one field. The two
    updates, one after the other, act as one update with the merged
    patch served at the second clock reading: a field set by both takes
    the second value, a field set by one takes that value. Answer and
    database agree. *)
Theorem successive_updates_merge :
  forall (ticket_id : Z) (p q : models.TicketUpdate) (now1 now2 : string)
         (d : db.Database) (old : db.Row),
    db.select_by_id d ticket_id = Some old ->
    db.int64 ticket_id = true ->
    models.model_dump_exclude_unset q <> [] ->
    patch_encodable p = true ->
    patch_encodable q = true ->
    models.status p <> Some None ->
    models.status q <> Some None ->
    main.update_ticket ticket_id q now2
      (snd (main.update_ticket ticket_id p now1 d))
    = main.update_ticket ticket_id (merge_patches p q) now2 d.
Proof.
  intros ticket_id p q now1 now2 d old Hold Hi Hq Ep Eq Hsp Hsq.
  destruct (models.model_dump_exclude_unset p) as [|x l] eqn:Hd.
  { unfold main.update_ticket at 2. rewrite Hd. cbn [snd].
    apply dump_nonempty in Hd. subst p. now rewrite merge_nothing. }
  assert (Hp : models.model_dump_exclude_unset p <> []) by congruence.
  clear x l Hd.
  rewrite (update_ticket_existing p ticket_id now1 d old Hp Ep Hi Hsp Hold).
  cbn [snd].
  assert (Hmid : db.select_by_id
            {| db.tickets := rows_after_update p ticket_id now1 (db.tickets d);
               db.sqlite_sequence := db.sqlite_sequence d |} ticket_id
          = Some (db.tickets_updated_at now1 (patched p old))).
  { unfold db.select_by_id in *. cbn [db.tickets].
    now rewrite find_rows_after_update, Z.eqb_refl, Hold. }
  rewrite (update_ticket_existing q ticket_id now2 _ _ Hq Eq Hi Hsq Hmid).
  assert (Hsm : models.status (merge_patches p q) <> Some None).
  { destruct p as [a1 ? ? ? ?], q as [b1 ? ? ? ?]. simpl in *.
    destruct b1 as [[s|]|]; simpl; congruence. }
  rewrite (update_ticket_existing (merge_patches p q) ticket_id now2 d old
             (merge_dump_nonempty p q Hq) (merge_encodable p q Ep Eq) Hi Hsm Hold).
  rewrite (patched_twice p q now1 now2 old Hsq). f_equal. cbn [db.tickets
    db.sqlite_sequence]. f_equal.
  unfold rows_after_update. rewrite map_map. apply map_ext. intros r.
  destruct (db.id r =? ticket_id) eqn:E; simpl; rewrite E;
    [apply patched_twice; exact Hsq | reflexivity].
Qed.

Lemma successive_updates_witness :
  main.update_ticket 1 sample.escalate fixture.t1
    (snd (main.update_ticket 1 sample.resolve fixture.t0 sample.two_ticket_db))
  = main.update_ticket 1 sample.escalate fixture.t1 sample.two_ticket_db.
Proof.
  apply (successive_updates_merge 1 sample.resolve sample.escalate fixture.t0
           fixture.t1 sample.two_ticket_db fixture.first_row eq_refl eq_refl);
    (discriminate || reflexivity).
Defined.

Lemma select_after_other_update (p : models.TicketUpdate) (i j : Z)
    (now : string) (d : db.Database) :
  i <> j ->
  db.select_by_id (snd (main.update_ticket i p now d)) j = db.select_by_id d j.
Proof.
  intros Hij. rewrite update_ticket_database.
  destruct (fst (main.update_ticket i p now d)); [|reflexivity].
  unfold db.select_by_id. cbn [db.tickets]. rewrite find_rows_after_update.
  destruct (Z.eqb_spec j i); [congruence | reflexivity].
Qed.

Lemma rows_after_updates_commute (p q : models.TicketUpdate) (i j : Z)
    (now_i now_j : string) (rows : list db.Row) :
  i <> j ->
  rows_after_update q j now_j (rows_after_update p i now_i rows)
  = rows_after_update p i now_i (rows_after_update q j now_j rows).
Proof.
  intros Hij. unfold rows_after_update. rewrite !map_map. apply map_ext.
  intros r.
  destruct (Z.eqb_spec (db.id r) i) as [Ei | Ni];
    destruct (Z.eqb_spec (db.id r) j) as [Ej | Nj]; simpl.
  - congruence.
  - destruct (Z.eqb_spec (db.id r) j); [congruence|].
    destruct (Z.eqb_spec (db.id r) i); [reflexivity | congruence].
  - destruct (Z.eqb_spec (db.id r) i); [congruence|].
    destruct (Z.eqb_spec (db.id r) j); [reflexivity | congruence].
  - destruct (Z.eqb_spec (db.id r) i); [congruence|].
    destruct (Z.eqb_spec (db.id r) j); [congruence | reflexivity].
Qed.

Lemma update_answer_after_other_update (p q : models.TicketUpdate) (i j : Z)
    (now_i now_j : string) (d : db.Database) :
  i <> j ->
  fst (main.update_ticket j q now_j (snd (main.update_ticket i p now_i d)))
  = fst (main.update_ticket j q now_j d).
Proof.
  intros Hij. rewrite !update_ticket_answer.
  now rewrite select_after_other_update.
Qed.

(** X10. Updates of two different tickets do not interfere: each gets
    the answer it would get alone, and the database after both is the
    same whichever is served first. This holds for every pair of
    patches, also when one or both updates are refused. *)
Theorem updates_of_different_tickets_commute :
  forall (i j : Z) (p q : models.TicketUpdate) (now_i now_j : string)
         (d : db.Database),
    i <> j ->
    fst (main.update_ticket j q now_j (snd (main.update_ticket i p now_i d)))
    = fst (main.update_ticket j q now_j d) /\
    fst (main.update_ticket i p now_i (snd (main.update_ticket j q now_j d)))
    = fst (main.update_ticket i p now_i d) /\
    snd (main.update_ticket j q now_j (snd (main.update_ticket i p now_i d)))
    = snd (main.update_ticket i p now_i (snd (main.update_ticket j q now_j d))).
Proof.
  intros i j p q now_i now_j d Hij.
  pose proof (update_answer_after_other_update p q i j now_i now_j d Hij) as Hj.
  pose proof (update_answer_after_other_update q p j i now_j now_i d
                (not_eq_sym Hij)) as Hi.
  split; [exact Hj|]. split; [exact Hi|].
  rewrite (update_ticket_database q j now_j (snd (main.update_ticket i p now_i d))).
  rewrite (update_ticket_database p i now_i (snd (main.update_ticket j q now_j d))).
  rewrite Hj, Hi.
  rewrite (update_ticket_database p i now_i d),
          (update_ticket_database q j now_j d).
  destruct (fst (main.update_ticket i p now_i d)),
           (fst (main.update_ticket j q now_j d));
    cbn [db.tickets db.sqlite_sequence]; try reflexivity.
  f_equal. now apply rows_after_updates_commute.
Qed.

Lemma updates_commute_witness :
  snd (main.update_ticket 2 sample.escalate fixture.t1
         (snd (main.update_ticket 1 sample.resolve fixture.t1 sample.two_ticket_db)))
  = snd (main.update_ticket 1 sample.resolve fixture.t1
           (snd (main.update_ticket 2 sample.escalate fixture.t1
                   sample.two_ticket_db))).
Proof.
  apply (updates_of_different_tickets_commute 1 2 sample.resolve sample.escalate
           fixture.t1 fixture.t1 sample.two_ticket_db).
  discriminate.
Defined.

(** ** Validation of the update body, in general *)

Section ValidationMore.
Context {number : Type}.

Lemma literal_field_accepts allowed (o : option (json number)) :
  (exists f, models.literal_field allowed o = Ok f)
  <-> field_accepts (Some allowed) o = true.
Proof.
  destruct o as [[| b | n | s | l | items]|]; simpl;
    (split; [intros [f H] | intros H]); try discriminate; eauto.
  - destruct (models.is_literal allowed s); [reflexivity | discriminate].
  - rewrite H. eauto.
Qed.

Lemma str_field_accepts (o : option (json number)) :
  (exists f, models.str_field o = Ok f) <-> field_accepts None o = true.
Proof.
  destruct o as [[| b | n | s | l | items]|]; simpl;
    (split; [intros [f H] | intros H]); try discriminate; eauto.
Qed.

Lemma literal_field_value allowed (o : option (json number)) s :
  models.literal_field allowed o = Ok (Some (Some s)) ->
  In s allowed /\ o = Some (JString s).
Proof.
  destruct o as [[]|]; simpl; try discriminate.
  destruct (models.is_literal allowed s0) eqn:E; [|discriminate].
  intros [= ->]. split; [|reflexivity].
  unfold models.is_literal in E. apply existsb_exists in E.
  destruct E as (x & Hx & Ex). apply String.eqb_eq in Ex. now subst.
Qed.

End ValidationMore.

(** X11. A body passes the validation of [TicketUpdate] exactly when it
    is a JSON object in which each of the five fields is missing, null or
    a text, the text being one of the literals for [status], [priority]
    and [category]. In the patch it yields, a value of these three fields
    is one of their literals, and it is the text that was sent. *)
Theorem validate_TicketUpdate_accepts_exactly :
  forall (number : Type) (body : json number),
    ((exists patch, models.validate_TicketUpdate body = Ok patch) <->
     exists items,
       body = JDict items /\
       field_accepts (Some models.status_literals) (dict_get "status" items) = true /\
       field_accepts (Some models.priority_literals) (dict_get "priority" items) = true /\
       field_accepts (Some models.category_literals) (dict_get "category" items) = true /\
       field_accepts None (dict_get "summary" items) = true /\
       field_accepts None (dict_get "suggested_reply" items) = true) /\
    (forall patch items,
       body = JDict items ->
       models.validate_TicketUpdate body = Ok patch ->
       (forall s, models.status patch = Some (Some s) ->
                  In s models.status_literals /\
                  dict_get "status" items = Some (JString s)) /\
       (forall s, models.priority patch = Some (Some s) ->
                  In s models.priority_literals /\
                  dict_get "priority" items = Some (JString s)) /\
       (forall s, models.category patch = Some (Some s) ->
                  In s models.category_literals /\
                  dict_get "category" items = Some (JString s))).
Proof.
  intros number body. split.
  - split.
    + intros [patch H]. destruct body; try discriminate.
      exists items. split; [reflexivity|].
      apply validate_ok_fields in H. destruct H as (H1 & H2 & H3 & H4 & H5).
      repeat split;
        first [apply literal_field_accepts | apply str_field_accepts]; eauto.
    + intros (items & -> & H1 & H2 & H3 & H4 & H5).
      apply literal_field_accepts in H1, H2, H3.
      apply str_field_accepts in H4, H5.
      destruct H1 as [f1 H1], H2 as [f2 H2], H3 as [f3 H3],
               H4 as [f4 H4], H5 as [f5 H5].
      simpl. rewrite H1, H2, H3, H4, H5. simpl. eauto.
  - intros patch items -> H.
    apply validate_ok_fields in H. destruct H as (H1 & H2 & H3 & _).
    split; [|split]; intros s E; rewrite E in *.
    + exact (literal_field_value _ _ _ H1).
    + exact (literal_field_value _ _ _ H2).
    + exact (literal_field_value _ _ _ H3).
Qed.

Lemma validate_TicketUpdate_witness :
  (exists patch,
     models.validate_TicketUpdate
       (JDict [("status", JString (number := Z) "closed"); ("summary", JNull)])
     = Ok patch) /\
  ~ (exists patch,
       models.validate_TicketUpdate
         (JDict [("summary", JBool (number := Z) true)]) = Ok patch).
Proof.
  destruct (validate_TicketUpdate_accepts_exactly Z
              (JDict [("status", JString "closed"); ("summary", JNull)]))
    as [[_ H] _].
  destruct (validate_TicketUpdate_accepts_exactly Z
              (JDict [("summary", JBool true)])) as [[H' _] _].
  split.
  - apply H. eexists. repeat split.
  - intros E. destruct (H' E) as (items & [= <-] & _ & _ & _ & F & _).
    discriminate F.
Defined.

Lemma get_ticket_witness :
  main.get_ticket 7 sample.two_ticket_db
  = Raise (HTTPException 404 "Ticket not found").
Proof.
  destruct (get_ticket_found_or_404 7 sample.two_ticket_db) as (_ & [_ H] & _).
  apply H. split; [lia|]. intros r [<- | [<- | []]]; discriminate.
Defined.

(** ** Listing, in general *)

Lemma firstn_then_next {A : Type} (a b : nat) (l : list A) :
  (firstn a l ++ firstn b (skipn a l))%list = firstn (a + b) l.
Proof.
  revert l. induction a as [|a IH]; intros l; [reflexivity|].
  destruct l as [|x l]; simpl.
  - now rewrite firstn_nil.
  - now rewrite IH.
Qed.

Lemma pages_tile (where_status : option string) (l1 l2 offset : Z)
    (d : db.Database) :
  0 <= l1 -> 0 <= l2 -> 0 <= offset ->
  (db.select_tickets where_status l1 offset d
   ++ db.select_tickets where_status l2 (offset + l1) d)%list
  = db.select_tickets where_status (l1 + l2) offset d.
Proof.
  intros H1 H2 Ho.
  unfold db.select_tickets, db.limit_offset.
  destruct (Z.ltb_spec l1 0); [lia|].
  destruct (Z.ltb_spec l2 0); [lia|].
  destruct (Z.ltb_spec (l1 + l2) 0); [lia|].
  replace (Z.to_nat (offset + l1)) with (Z.to_nat l1 + Z.to_nat offset)%nat by lia.
  replace (Z.to_nat (l1 + l2)) with (Z.to_nat l1 + Z.to_nat l2)%nat by lia.
  rewrite <- skipn_skipn. apply firstn_then_next.
Qed.

(** X12. Pages tile the listing: for limits and an offset that are not
    negative, when the page of [l1] rows at [offset] and the page of [l2]
    rows at [offset + l1] are returned and [l1 + l2] is below 2^63, the
    page of [l1 + l2] rows at [offset] is returned too, and it is the
    first page followed by the second, with no row lost or repeated at
    the seam. *)
Theorem consecutive_pages_tile :
  forall (status : option string) (l1 l2 offset : Z) (d : db.Database)
         (rows1 rows2 : list db.Row),
    0 <= l1 -> 0 <= l2 -> 0 <= offset -> l1 + l2 < 2 ^ 63 ->
    main.list_tickets status l1 offset d = Ok rows1 ->
    main.list_tickets status l2 (offset + l1) d = Ok rows2 ->
    main.list_tickets status (l1 + l2) offset d = Ok (rows1 ++ rows2)%list.
Proof.
  intros status l1 l2 offset d rows1 rows2 H1 H2 Ho Hsum P1 P2.
  apply list_tickets_ok in P1, P2.
  destruct P1 as (-> & Hs & _ & Hoff), P2 as (-> & _).
  rewrite list_tickets_cases, Hs, Hoff. cbn [negb].
  assert (Hl : db.int64 (l1 + l2) = true) by (apply int64_bounds; lia).
  rewrite Hl. cbn [andb negb]. f_equal. symmetry. now apply pages_tile.
Qed.

Lemma consecutive_pages_witness :
  main.list_tickets None 2 0 sample.two_ticket_db
  = Ok [sample.second_row; fixture.first_row].
Proof.
  apply (consecutive_pages_tile None 1 1 0 sample.two_ticket_db
           [sample.second_row] [fixture.first_row]);
    try lia; reflexivity.
Defined.

(** X13. With a non-empty status that UTF-8 can encode, offset 0 and a
    limit below 2^63 that is no smaller than the number of stored tickets
    of that status, the listing is returned and holds exactly the stored
    tickets of that status, each as often as it is stored. *)
Theorem listing_by_status_is_complete :
  forall (s : string) (limit : Z) (d : db.Database),
    s <> "" ->
    encodable s = true ->
    Z.of_nat (List.length (with_status s (db.tickets d))) <= limit ->
    limit < 2 ^ 63 ->
    exists rows,
      main.list_tickets (Some s) limit 0 d = Ok rows /\
      Permutation rows (with_status s (db.tickets d)) /\
      (forall r, In r rows <-> In r (db.tickets d) /\ db.status r = s).
Proof.
  intros s limit d Hs Henc Hlen Hlim.
  assert (Ht : truthy (Some s) = true).
  { simpl. destruct (String.eqb_spec s ""); [contradiction | reflexivity]. }
  rewrite list_tickets_cases, (status_encodable_truthy s Henc).
  assert (Hl : db.int64 limit = true) by (apply int64_bounds; lia).
  assert (H0 : db.int64 0 = true) by reflexivity.
  rewrite Hl, H0. cbn [negb andb]. unfold filter_of. rewrite Ht.
  eexists. split; [reflexivity|].
  assert (P : Permutation (db.select_tickets (Some s) limit 0 d)
                (with_status s (db.tickets d))).
  { unfold db.select_tickets. fold (with_status s (db.tickets d)).
    rewrite limit_offset_all.
    - apply order_by_perm.
    - now rewrite (Permutation_length (order_by_perm _)). }
  split; [exact P|]. intros r. split.
  - intros H. apply (Permutation_in _ P) in H. unfold with_status in H.
    apply filter_In in H. destruct H as [Hin E]. split; [exact Hin|].
    now apply String.eqb_eq.
  - intros [Hin E]. apply (Permutation_in _ (Permutation_sym P)).
    unfold with_status. apply filter_In. split; [exact Hin|].
    now apply String.eqb_eq.
Qed.

Lemma listing_by_status_witness :
  exists rows,
    main.list_tickets (Some "new") 20 0 sample.two_ticket_db = Ok rows /\
    Permutation rows (db.tickets sample.two_ticket_db).
Proof.
  destruct (listing_by_status_is_complete "new" 20 sample.two_ticket_db)
    as (rows & H & P & _).
  - discriminate.
  - reflexivity.
  - vm_compute. discriminate.
  - lia.
  - exists rows. split; [exact H | exact P].
Defined.

(** ** Requests sent while creating *)

Section RequestsSent.
Context {World number : Type}.
Variable provider : ai.ChatRequest -> World -> ai.Reply * World.
Variable json_loads : string -> option (json number).
Variable number_text : number -> option string.

(** Creation leaves the outside world as triage left it. *)
Lemma create_ticket_net api_key now ticket (n : ai.Net World) d :
  snd (fst (main.create_ticket provider json_loads number_text api_key now
              ticket n d))
  = snd (ai.analyze_ticket provider json_loads api_key
           (models.subject ticket) (models.body ticket) n).
Proof.
  unfold main.create_ticket.
  destruct (ai.analyze_ticket provider json_loads api_key
              (models.subject ticket) (models.body ticket) n) as [triage n1].
  destruct (main.parameters number_text ticket _) as [[t [[[p c] s] r]]|e];
    [|reflexivity].
  destruct (db.insert_ticket _ _ _ _ _ _ _ _ _ _ _) as [[i d1]|e];
    [|reflexivity].
  now destruct (db.select_by_id d1 i).
Qed.

(** X14. Serving one creation sends the provider no request at all, and
    leaves the world untouched, when the credential is missing or empty.
    Otherwise the requests sent are appended to those sent before: the
    strict request for the ticket's subject and body, one to three times,
    followed by the fallback request for them, at most three times. This
    holds whatever the provider answers and whether or not the creation
    succeeds. *)
Theorem create_ticket_sends_strict_then_fallback :
  forall (api_key : option string) (now : string)
         (ticket : models.TicketCreate) (n : ai.Net World) (d : db.Database),
    let n' := snd (fst (main.create_ticket provider json_loads number_text
                          api_key now ticket n d)) in
    let system :=
      {| ai.role := "system";
         ai.content := "You are a helpful customer support assistant. Return structured results." |} in
    let user :=
      {| ai.role := "user";
         ai.content := "Ticket subject: " ++ models.subject ticket
                       ++ String "010"%char ""
                       ++ "Ticket body: " ++ models.body ticket |} in
    let reminder :=
      {| ai.role := "user";
         ai.content := "Return ONLY a valid JSON object with keys: priority, category, summary, suggested_reply." |} in
    let strict :=
      {| ai.model := "gpt-4.1-mini";
         ai.messages := [system; user];
         ai.temperature := QArith_base.Qmake 2 10;
         ai.response_format :=
           ai.json_schema "ticket_analysis"
             {| ai.additionalProperties := false;
                ai.properties :=
                  [("priority",
                    {| ai.type_ := "string";
                       ai.enum := Some ["low"; "medium"; "high"] |});
                   ("category",
                    {| ai.type_ := "string";
                       ai.enum := Some ["billing"; "technical"; "account"; "other"] |});
                   ("summary", {| ai.type_ := "string"; ai.enum := None |});
                   ("suggested_reply", {| ai.type_ := "string"; ai.enum := None |})];
                ai.required := ["priority"; "category"; "summary"; "suggested_reply"] |}
             true |} in
    let fallback :=
      {| ai.model := "gpt-4.1-mini";
         ai.messages := [system; user; reminder];
         ai.temperature := QArith_base.Qmake 2 10;
         ai.response_format := ai.json_object |} in
    (truthy api_key = false -> n' = n) /\
    (truthy api_key = true ->
     exists k j : nat,
       (1 <= k <= 3)%nat /\ (j <= 3)%nat /\
       ai.sent n' = (ai.sent n ++ repeat strict k ++ repeat fallback j)%list).
Proof.
  intros api_key now ticket n d n' system user reminder strict fallback.
  assert (Hs : strict
               = ai.strict_request (models.subject ticket) (models.body ticket))
    by reflexivity.
  assert (Hf : fallback
               = ai.fallback_request (models.subject ticket) (models.body ticket))
    by reflexivity.
  clearbody strict fallback. subst strict fallback. clear system user reminder.
  subst n'. rewrite create_ticket_net. split; intros Hk.
  - now rewrite (analyze_ticket_missing_key provider json_loads api_key _ _ n Hk).
  - rewrite (analyze_ticket_attempts provider json_loads api_key _ _ n Hk).
    cbv zeta.
    pose proof (attempt_count provider json_loads
                  (ai.strict_request (models.subject ticket) (models.body ticket))
                  (ai.world n)) as H1.
    pose proof (attempt_count provider json_loads
                  (ai.fallback_request (models.subject ticket) (models.body ticket))
                  (snd (fst (attempt provider json_loads
                               (ai.strict_request (models.subject ticket)
                                  (models.body ticket)) (ai.world n))))) as H2.
    destruct (fst (fst (attempt provider json_loads
                          (ai.strict_request (models.subject ticket)
                             (models.body ticket)) (ai.world n)))).
    + eexists _, 0%nat. split; [exact H1|]. split; [lia|].
      cbn [snd ai.sent repeat]. now rewrite app_nil_r.
    + eexists _, _. split; [exact H1|]. split; [exact (proj2 H2)|]. reflexivity.
Qed.

End RequestsSent.

Lemma create_ticket_requests_witness :
  snd (fst (main.create_ticket fixture.provider fixture.json_loads
              fixture.number_text (Some "") fixture.t0 fixture.printer_ticket
              (fixture.net [ai.Completion (Some fixture.good_text)])
              fixture.empty_db))
  = fixture.net [ai.Completion (Some fixture.good_text)].
Proof.
  destruct (create_ticket_sends_strict_then_fallback fixture.provider
              fixture.json_loads fixture.number_text (Some "") fixture.t0
              fixture.printer_ticket
              (fixture.net [ai.Completion (Some fixture.good_text)])
              fixture.empty_db) as [H _].
  apply H. reflexivity.
Defined.

(** ** Runs *)

Lemma string_leb_refl (s : string) : String.leb s s = true.
Proof.
  unfold String.leb. pose proof (String.compare_antisym s s) as H.
  destruct (String.compare s s); try reflexivity; discriminate.
Qed.

Lemma max_id_le (rows : list db.Row) (b : Z) :
  0 <= b -> (forall r, In r rows -> db.id r <= b) -> db.max_id rows <= b.
Proof.
  intros Hb. induction rows as [|x rows IH]; simpl; intros H; [exact Hb|].
  apply Z.max_lub; [apply H; now left | apply IH; intros r Hr; apply H; now right].
Qed.

Lemma first_ids_snoc (n : nat) :
  first_ids (S n) = (first_ids n ++ [Z.of_nat (S n)])%list.
Proof. unfold first_ids. now rewrite seq_S, map_app. Qed.

Lemma first_ids_bound (n : nat) (i : Z) : In i (first_ids n) <-> 1 <= i <= Z.of_nat n.
Proof.
  unfold first_ids. rewrite in_map_iff. split.
  - intros (k & <- & Hk). apply in_seq in Hk. lia.
  - intros H. exists (Z.to_nat i). split; [lia|]. apply in_seq. lia.
Qed.

Lemma first_ids_nodup (n : nat) : NoDup (first_ids n).
Proof.
  induction n as [|n IH]; [constructor|].
  rewrite first_ids_snoc. apply NoDup_app; [exact IH | repeat constructor; auto |].
  intros i Hi [<- | []]. apply first_ids_bound in Hi. lia.
Qed.

Lemma consecutive_next_id (d : db.Database) :
  consecutive_ids d -> db.next_id d = Z.of_nat (S (List.length (db.tickets d))).
Proof.
  intros [Hids Hseq]. unfold db.next_id. rewrite Hseq.
  assert (db.max_id (db.tickets d) <= Z.of_nat (List.length (db.tickets d))).
  { apply max_id_le; [lia|]. intros r Hr.
    assert (Hi : In (db.id r) (map db.id (db.tickets d))) by now apply in_map.
    rewrite Hids in Hi. apply first_ids_bound in Hi. lia. }
  lia.
Qed.

Lemma consecutive_with_row (d : db.Database) (row : db.Row) :
  consecutive_ids d -> db.id row = db.next_id d -> consecutive_ids (with_row d row).
Proof.
  intros Hc Hid. pose proof (consecutive_next_id d Hc) as Hn.
  destruct Hc as [Hids Hseq]. unfold consecutive_ids, with_row. simpl.
  rewrite length_app, map_app, Hids. simpl.
  replace (List.length (db.tickets d) + 1)%nat with (S (List.length (db.tickets d)))
    by lia.
  rewrite first_ids_snoc. split; [|lia]. do 2 f_equal. lia.
Qed.

Lemma consecutive_after_update (p : models.TicketUpdate) (i : Z) (now : string)
    (d : db.Database) :
  consecutive_ids d ->
  consecutive_ids {| db.tickets := rows_after_update p i now (db.tickets d);
                     db.sqlite_sequence := db.sqlite_sequence d |}.
Proof.
  intros [Hids Hseq]. unfold consecutive_ids. simpl.
  rewrite ids_after_update. unfold rows_after_update. rewrite length_map.
  now split.
Qed.

Lemma in_order_later (clock now : string) (r : db.Row) :
  String.leb clock now = true -> in_order clock r -> in_order now r.
Proof.
  intros Hc (Hs & H1 & H2). repeat split; try assumption.
  exact (string_leb_trans _ _ _ H2 Hc).
Qed.

Lemma in_order_updated (clock now : string) (p : models.TicketUpdate) (r : db.Row) :
  String.leb clock now = true ->
  (forall s, models.status p = Some (Some s) -> In s models.status_literals) ->
  in_order clock r ->
  in_order now (db.tickets_updated_at now (patched p r)).
Proof.
  intros Hc Hp (Hs & H1 & H2).
  unfold in_order, db.tickets_updated_at, patched.
  cbn [db.status db.created_at db.updated_at]. split; [|split].
  - destruct (models.status p) as [[s|]|]; auto.
  - exact (string_leb_trans _ _ _ H1 (string_leb_trans _ _ _ H2 Hc)).
  - apply string_leb_refl.
Qed.

Section RunFacts.
Context {World number : Type}.
Variable provider : ai.ChatRequest -> World -> ai.Reply * World.
Variable json_loads : string -> option (json number).
Variable number_text : number -> option string.
Variable validate_email : string -> option string.
Variable api_key : option string.

Local Abbreviation serve_one :=
  (serve provider json_loads number_text validate_email api_key).
Local Abbreviation run_all :=
  (run provider json_loads number_text validate_email api_key).

(** The database after one request: the one before, or that with one
    created row, or that with one validated patch applied. *)
Lemma serve_database (now : string) (c : call number)
    (st : ai.Net World * db.Database) :
  snd (serve_one now c st) = snd st \/
  (exists ticket p c' s r,
     snd (serve_one now c st)
     = with_row (snd st) (created_row now ticket p c' s r (snd st))) \/
  (exists ticket_id (body : json number) patch,
     models.validate_TicketUpdate body = Ok patch /\
     snd (serve_one now c st)
     = {| db.tickets := rows_after_update patch ticket_id now (db.tickets (snd st));
          db.sqlite_sequence := db.sqlite_sequence (snd st) |}).
Proof.
  destruct st as [n d]. destruct c as [body | ticket_id body]; unfold serve;
    cbn [fst snd].
  - unfold main.create_ticket_request.
    destruct (models.validate_TicketCreate validate_email body) as [ticket|e];
      [|now left].
    destruct (main.create_ticket provider json_loads number_text api_key now
                ticket n d) as [[[row|e] n'] d'] eqn:H.
    + apply create_ticket_ok_inv in H.
      destruct H as (p & c' & s & r & -> & -> & _).
      right. left. now exists ticket, p, c', s, r.
    + apply create_ticket_raise_inv in H.
      destruct H as [-> _]. now left.
  - unfold main.update_ticket_request.
    destruct (models.validate_TicketUpdate body) as [patch|e] eqn:Hv;
      [|now left].
    rewrite update_ticket_database.
    destruct (fst (main.update_ticket ticket_id patch now d)); [|now left].
    right. right. now exists ticket_id, body, patch.
Qed.

Lemma serve_keeps_ids (now : string) (c : call number)
    (st : ai.Net World * db.Database) :
  consecutive_ids (snd st) -> consecutive_ids (snd (serve_one now c st)).
Proof.
  intros H.
  destruct (serve_database now c st)
    as [-> | [(t & p & c' & s & r & ->) | (i & b & patch & _ & ->)]].
  - exact H.
  - now apply consecutive_with_row.
  - now apply consecutive_after_update.
Qed.

Lemma serve_keeps_order (clock now : string) (c : call number)
    (st : ai.Net World * db.Database) :
  String.leb clock now = true ->
  Forall (in_order clock) (db.tickets (snd st)) ->
  Forall (in_order now) (db.tickets (snd (serve_one now c st))).
Proof.
  intros Hc H.
  assert (H' : Forall (in_order now) (db.tickets (snd st))).
  { eapply Forall_impl; [|exact H]. intros r. now apply in_order_later. }
  destruct (serve_database now c st)
    as [-> | [(t & p & c' & s & r & ->) | (i & b & patch & Hv & ->)]].
  - exact H'.
  - simpl. apply Forall_app. split; [exact H'|]. constructor; [|constructor].
    unfold in_order. simpl. repeat split; auto using string_leb_refl.
  - simpl. unfold rows_after_update. apply Forall_map.
    eapply Forall_impl; [|exact H]. intros r Hr.
    destruct (db.id r =? i); [|now apply (in_order_later clock)].
    apply (in_order_updated clock); [exact Hc | | exact Hr].
    intros s Hs.
    destruct b as [| | | | |items]; try discriminate.
    apply validate_ok_fields in Hv. destruct Hv as (Hst & _).
    rewrite Hs in Hst. exact (proj1 (literal_field_value _ _ _ Hst)).
Qed.

Lemma serve_keeps_tickets (now : string) (c : call number)
    (st : ai.Net World * db.Database) (i : Z) (r : db.Row) :
  db.select_by_id (snd st) i = Some r ->
  exists r', db.select_by_id (snd (serve_one now c st)) i = Some r' /\ same_ticket r r'.
Proof.
  intros H.
  destruct (serve_database now c st)
    as [-> | [(t & p & c' & s & x & ->) | (j & b & patch & _ & ->)]].
  - exists r. split; [exact H | repeat split].
  - exists r. split; [|repeat split].
    unfold db.select_by_id, with_row in *. simpl.
    rewrite find_app_miss; [exact H|].
    apply find_some in H. destruct H as [Hin Hid]. apply Z.eqb_eq in Hid.
    apply next_id_fresh in Hin. apply Z.eqb_neq. simpl. lia.
  - unfold db.select_by_id in *. cbn [db.tickets].
    rewrite find_rows_after_update.
    destruct (Z.eqb_spec i j) as [<- | _]; rewrite H; simpl; eexists;
      (split; [reflexivity|repeat split]).
Qed.

(** X15. Starting from the empty database, after any sequence of
    creation and update requests, whatever their bodies and outcomes, the
    stored tickets carry the ids 1, 2, ..., n in the order of their
    creation, the AUTOINCREMENT counter stands at n, and no two tickets
    share an id. *)
Theorem run_keeps_ids_consecutive :
  forall (calls : list (string * call number)) (n : ai.Net World),
    let d := snd (run_all calls (n, db.init_db None)) in
    map db.id (db.tickets d) = first_ids (List.length (db.tickets d)) /\
    db.sqlite_sequence d = Z.of_nat (List.length (db.tickets d)) /\
    NoDup (map db.id (db.tickets d)).
Proof.
  intros calls n.
  assert (G : forall st, consecutive_ids (snd st) ->
                         consecutive_ids (snd (run_all calls st))).
  { induction calls as [|[now c] calls IH]; intros st H; [exact H|].
    apply IH. now apply serve_keeps_ids. }
  destruct (G (n, db.init_db None)) as [H1 H2]; [now split|].
  intros d. fold d in H1, H2. split; [exact H1|]. split; [exact H2|].
  rewrite H1. apply first_ids_nodup.
Qed.

(** X16. Starting from the empty database, after any sequence of
    requests served at clock readings that never go back, every stored
    ticket has a status out of new, open, pending, resolved, closed, its
    [created_at] is not after its [updated_at], and its [updated_at] is
    not after the last clock reading. *)
Theorem run_keeps_status_and_timestamps :
  forall (calls : list (string * call number)) (n : ai.Net World) (clock : string),
    chronological clock calls ->
    Forall (in_order (last_clock clock calls))
      (db.tickets (snd (run_all calls (n, db.init_db None)))).
Proof.
  intros calls n clock.
  assert (G : forall st clock0,
            chronological clock0 calls ->
            Forall (in_order clock0) (db.tickets (snd st)) ->
            Forall (in_order (last_clock clock0 calls))
              (db.tickets (snd (run_all calls st)))).
  { induction calls as [|[now c] calls IH]; intros st clock0 Hc H; [exact H|].
    destruct Hc as [Hnow Hrest]. simpl. apply IH; [exact Hrest|].
    now apply (serve_keeps_order clock0). }
  intros Hc. apply G; [exact Hc | constructor].
Qed.

(** X17. No request removes a ticket or rewrites what was stored at its
    creation: a ticket that can be fetched before a sequence of requests
    can be fetched after it, under the same id, with the same [source],
    [customer_name], [customer_email], [subject], [body] and
    [created_at]. *)
Theorem run_keeps_every_ticket :
  forall (calls : list (string * call number))
         (st : ai.Net World * db.Database) (i : Z) (r : db.Row),
    main.get_ticket i (snd st) = Ok r ->
    exists r',
      main.get_ticket i (snd (run_all calls st)) = Ok r' /\ same_ticket r r'.
Proof.
  intros calls st i r H.
  apply get_ticket_ok in H. destruct H as [Hi Hsel].
  revert st r Hsel.
  induction calls as [|[now c] calls IH]; intros st r Hsel.
  - exists r. cbn [run]. split; [now apply get_ticket_selected|]. repeat split.
  - destruct (serve_keeps_tickets now c st i r Hsel) as (r1 & H1 & S1).
    destruct (IH _ _ H1) as (r' & H' & S'). exists r'. split; [exact H'|].
    destruct S1 as (a1 & a2 & a3 & a4 & a5 & a6 & a7).
    destruct S' as (b1 & b2 & b3 & b4 & b5 & b6 & b7).
    repeat split; congruence.
Qed.

End RunFacts.

Lemma run_keeps_ids_witness :
  map db.id
    (db.tickets
       (snd (run fixture.provider fixture.json_loads fixture.number_text
               sample.validate_email None sample_calls
               (fixture.net [], db.init_db None))))
  = [1; 2].
Proof.
  destruct (run_keeps_ids_consecutive fixture.provider fixture.json_loads
              fixture.number_text sample.validate_email None sample_calls
              (fixture.net [])) as (H & _ & _).
  exact H.
Defined.

Lemma run_keeps_status_witness :
  Forall (in_order fixture.t1)
    (db.tickets
       (snd (run fixture.provider fixture.json_loads fixture.number_text
               sample.validate_email None sample_calls
               (fixture.net [], db.init_db None)))).
Proof.
  apply (run_keeps_status_and_timestamps fixture.provider fixture.json_loads
           fixture.number_text sample.validate_email None sample_calls
           (fixture.net []) fixture.t0).
  simpl. repeat split; reflexivity.
Defined.

Lemma run_keeps_every_ticket_witness :
  exists r',
    main.get_ticket 1
      (snd (run fixture.provider fixture.json_loads fixture.number_text
              sample.validate_email None sample_calls
              (fixture.net [], fixture.one_ticket_db))) = Ok r' /\
    db.subject r' = "Printer" /\ db.created_at r' = fixture.t0.
Proof.
  destruct (run_keeps_every_ticket fixture.provider fixture.json_loads
              fixture.number_text sample.validate_email None sample_calls
              (fixture.net [], fixture.one_ticket_db) 1 _ eq_refl)
    as (r' & H & _ & _ & _ & _ & Hs & _ & Hc).
  exists r'. split; [exact H|]. split; [exact Hs | exact Hc].
Defined.

(** ** Validation of the creation body, in general *)

(** X18. A body accepted as [TicketCreate] is a JSON object whose
    "source", "subject" and "body" are texts, taken over unchanged, with
    "subject" and "body" not empty; "customer_name" is the text sent or
    absent, and "customer_email" is absent or the address the e-mail
    validator returns for the text sent. *)
Theorem validate_TicketCreate_takes_texts_unchanged :
  forall (number : Type) (validate_email : string -> option string)
         (body : json number) (ticket : models.TicketCreate),
    models.validate_TicketCreate validate_email body = Ok ticket ->
    models.TicketCreate_valid ticket = true /\
    exists items,
      body = JDict items /\
      dict_get "source" items = Some (JString (models.source ticket)) /\
      dict_get "subject" items = Some (JString (models.subject ticket)) /\
      dict_get "body" items = Some (JString (models.body ticket)) /\
      models.customer_name ticket = text_of (dict_get "customer_name" items) /\
      (models.customer_email ticket = None \/
       exists s, dict_get "customer_email" items = Some (JString s) /\
                 validate_email s = models.customer_email ticket).
Proof.
  intros number validate_email body ticket H.
  split; [exact (validated_ticket_valid validate_email body ticket H)|].
  destruct (validated_ticket_texts validate_email body ticket H)
    as (items & Hb & Hso & Hsu & Hbo & Hcn & Hce).
  exists items. repeat split; try assumption.
  destruct Hce as [[Hce _] | Hce]; [now left | now right].
Qed.

Lemma validate_TicketCreate_witness :
  exists ticket,
    models.validate_TicketCreate sample.validate_email sample.printer_body
    = Ok ticket /\
    models.subject ticket = "Printer" /\
    models.customer_email ticket = Some "ada@example.com".
Proof.
  eexists. split; [reflexivity|].
  destruct (validate_TicketCreate_takes_texts_unchanged _ sample.validate_email
              sample.printer_body _ eq_refl) as (_ & items & E & _).
  injection E as <-. split; reflexivity.
Defined.



(** ** Listing without repetition, updates without partial writes *)

Lemma nodup_firstn {A : Type} (k : nat) (l : list A) :
  NoDup l -> NoDup (firstn k l).
Proof.
  intros H. rewrite <- (firstn_skipn k l) in H. exact (NoDup_app_remove_r _ _ H).
Qed.

Lemma nodup_skipn {A : Type} (k : nat) (l : list A) :
  NoDup l -> NoDup (skipn k l).
Proof.
  intros H. rewrite <- (firstn_skipn k l) in H. exact (NoDup_app_remove_l _ _ H).
Qed.

Lemma nodup_ids_filter (f : db.Row -> bool) (rows : list db.Row) :
  NoDup (map db.id rows) -> NoDup (map db.id (filter f rows)).
Proof.
  induction rows as [|r rows IH]; simpl; intros H; [constructor|].
  inversion H as [|? ? Hnotin Hrest]; subst.
  destruct (f r); [|now apply IH]. simpl. constructor; [|now apply IH].
  intros Hin. apply Hnotin. apply in_map_iff in Hin.
  destruct Hin as (x & Hx & Hin). apply filter_In in Hin.
  apply in_map_iff. exists x. now split.
Qed.

Lemma nodup_ids_listing (where_status : option string) (limit offset : Z)
    (d : db.Database) :
  NoDup (map db.id (db.tickets d)) ->
  NoDup (map db.id (db.select_tickets where_status limit offset d)).
Proof.
  intros H. unfold db.select_tickets, db.limit_offset.
  set (matching := match where_status with
                   | Some s => filter (fun r => String.eqb (db.status r) s)
                                 (db.tickets d)
                   | None => db.tickets d
                   end).
  assert (Hm : NoDup (map db.id matching)).
  { subst matching. destruct where_status; [now apply nodup_ids_filter | exact H]. }
  assert (Hs : NoDup (map db.id (db.order_by_created_at_desc matching))).
  { eapply Permutation_NoDup; [|exact Hm].
    apply Permutation_map, Permutation_sym, order_by_perm. }
  destruct (limit <? 0).
  - rewrite <- skipn_map. now apply nodup_skipn.
  - rewrite <- firstn_map, <- skipn_map. now apply nodup_firstn, nodup_skipn.
Qed.

Lemma nodup_app_apart {A : Type} (l1 l2 : list A) (a : A) :
  NoDup (l1 ++ l2) -> In a l1 -> In a l2 -> False.
Proof.
  induction l1 as [|x l1 IH]; simpl; intros H H1 H2; [contradiction|].
  inversion H as [|? ? Hnotin Hrest]; subst.
  destruct H1 as [-> | H1]; [|exact (IH Hrest H1 H2)].
  apply Hnotin, in_or_app. now right.
Qed.

(** X20. In a database whose tickets have pairwise different ids, no
    listing that is returned shows a ticket twice, and a page and the
    page that follows it have no ticket in common. *)
Theorem listing_never_repeats_a_ticket :
  forall (status : option string) (l1 l2 offset : Z) (d : db.Database)
         (rows1 : list db.Row),
    NoDup (map db.id (db.tickets d)) ->
    0 <= l1 -> 0 <= l2 -> 0 <= offset ->
    main.list_tickets status l1 offset d = Ok rows1 ->
    NoDup (map db.id rows1) /\
    (forall rows2,
       main.list_tickets status l2 (offset + l1) d = Ok rows2 ->
       forall r, In r rows1 -> forall r', In r' rows2 -> db.id r <> db.id r').
Proof.
  intros status l1 l2 offset d rows1 Hd H1 H2 Ho P1.
  apply list_tickets_ok in P1. destruct P1 as (-> & _). split.
  - now apply nodup_ids_listing.
  - intros rows2 P2. apply list_tickets_ok in P2. destruct P2 as (-> & _).
    pose proof (nodup_ids_listing (filter_of status) (l1 + l2) offset d Hd)
      as Hall.
    rewrite <- (pages_tile (filter_of status) l1 l2 offset d H1 H2 Ho) in Hall.
    rewrite map_app in Hall. intros r Hr r' Hr' E.
    apply (nodup_app_apart _ _ (db.id r) Hall).
    + now apply in_map.
    + rewrite E. now apply in_map.
Qed.

Lemma listing_never_repeats_witness :
  NoDup (map db.id [sample.second_row; fixture.first_row]).
Proof.
  destruct (listing_never_repeats_a_ticket None 2 0 0 sample.two_ticket_db
              [sample.second_row; fixture.first_row])
    as [H _]; try lia.
  - repeat constructor; simpl; intuition discriminate.
  - reflexivity.
  - exact H.
Defined.


